(** * clientMMS: session lifecycle and transfer submission

    A shallow embedding of the two pieces of logic of the client:

    - [src/contexts/AuthContext.tsx]: the [AuthProvider] mount effect
      ([initAuth]) and the [login], [logout] and [register] operations;
    - [src/pages/transfers/new.tsx]: the [TransferSchema] validation, the
      asset fetch and selection effects and the [onSubmit] handler.

    Browser local storage is a finite map from keys to strings.  Every
    function of the source that touches the store, the router, the
    console, the notification layer or the network is a computation in a
    state-and-exception monad; what it does to the outside world is
    appended, in program order, to a trace of events kept in the state. *)

From Stdlib Require Import QArith.
From stdpp Require Import base strings gmap list.

Local Open Scope string_scope.
Local Open Scope list_scope.

(** ** Values shared by the two modules *)

(** Modelled from the spec: the [User] type of [types/user], which is not
    among the sources.  "identity, full name, email, role (one of a fixed
    enumeration), optional assigned base, active flag".  The role is kept
    as the string the pages compare it with. *)
Record User := {
  user_id : string;
  fullName : string;
  email : string;
  role : string;
  assignedBase : option string;
  isActive : bool;
}.

(** A thrown JavaScript value, which a [catch] receives as [any]: [null] or
    [undefined]; the [TypeError] that reading a property of one of these
    two throws; or any other value, with its message and with the
    [response.data.error] the pages look for in it, which is optional. *)
Inductive JsError :=
| Nullish
| TypeError (reading : string)
| ErrorValue (message : string) (response_data_error : option string).

(** ** Computations: state, exceptions, [try]/[catch]/[finally] *)

(** How a block of statements ends: normally with a value, or by a throw.
    For an [async] function this is also how its promise settles:
    [Normal] is a resolved promise, [Throw] a rejected one. *)
Inductive Completion (A : Type) : Type :=
| Normal (a : A)
| Throw (e : JsError).
Arguments Normal {A} a.
Arguments Throw {A} e.

Definition Eff (S A : Type) : Type := S -> Completion A * S.

Definition ret {S A} (a : A) : Eff S A := fun s => (Normal a, s).

Definition throw {S A} (e : JsError) : Eff S A := fun s => (Throw e, s).

Definition bind {S A B} (m : Eff S A) (k : A -> Eff S B) : Eff S B :=
  fun s =>
    match m s with
    | (Normal a, s') => k a s'
    | (Throw e, s') => (Throw e, s')
    end.

Declare Scope eff_scope.
Delimit Scope eff_scope with eff.
Notation "'let!' x ':=' m 'in' k" := (bind m (fun x => k))
  (at level 10, x name, m at level 100, k at level 200) : eff_scope.
Notation "m ';;;' k" := (bind m (fun _ => k))
  (at level 100, k at level 200, right associativity) : eff_scope.

(** [try { body } catch (error) { handler error }] *)
Definition try_catch {S A} (body : Eff S A) (handler : JsError -> Eff S A)
  : Eff S A :=
  fun s =>
    match body s with
    | (Normal a, s') => (Normal a, s')
    | (Throw e, s') => handler e s'
    end.

(** [try { body } finally { final }]: [final] runs however [body] ends; the
    completion of [body] stands unless [final] itself throws. *)
Definition try_finally {S A} (body : Eff S A) (final : Eff S unit)
  : Eff S A :=
  fun s =>
    match body s with
    | (c, s') =>
        match final s' with
        | (Normal _, s'') => (c, s'')
        | (Throw e, s'') => (Throw e, s'')
        end
    end.

Definition get {S} : Eff S S := fun s => (Normal s, s).
Definition modify {S} (f : S -> S) : Eff S unit := fun s => (Normal tt, f s).

(** The state a computation leaves, and how it completed. *)
Definition exec {S A} (m : Eff S A) (s : S) : S := snd (m s).
Definition outcome {S A} (m : Eff S A) (s : S) : Completion A := fst (m s).

(** ** The session and authentication flow *)

Module Auth.

(** The part of the state of [useAuthStore] that [AuthProvider] reads. *)
Record AuthStore := {
  user : option User;
  isAuthenticated : bool;
  isInitialized : bool;
}.

(** The body of a successful login response. *)
Record LoginResponse := {
  token : string;
  response_user : User;
}.

(** What the provider does to the outside world.  [ApiRegister] stands for
    the call [authService.register]; the provider has it only inside a
    comment, so no operation below emits it. *)
Inductive Event :=
| ConsoleLog (msg : string)
| ConsoleError (msg : string) (e : JsError)
| RouterReplace (url : string)
| RouterPush (url : string)
| ApiLogin (username password : string)
| ApiLogout
| ApiRegister.

Record World := {
  localStorage : gmap string string;
  authStore : AuthStore;
  pathname : string;
  trace : list Event;
}.

Definition emit (e : Event) : Eff World unit :=
  modify (fun w =>
    {| localStorage := localStorage w; authStore := authStore w;
       pathname := pathname w; trace := trace w ++ [e] |}).

Definition console_log (msg : string) : Eff World unit :=
  emit (ConsoleLog msg).

Definition console_error (msg : string) (e : JsError) : Eff World unit :=
  emit (ConsoleError msg e).

(** [localStorage.removeItem(key)] and [localStorage.setItem(key, value)] *)
Definition localStorage_removeItem (key : string) : Eff World unit :=
  modify (fun w =>
    {| localStorage := delete key (localStorage w);
       authStore := authStore w; pathname := pathname w;
       trace := trace w |}).

Definition localStorage_setItem (key value : string) : Eff World unit :=
  modify (fun w =>
    {| localStorage := <[key := value]> (localStorage w);
       authStore := authStore w; pathname := pathname w;
       trace := trace w |}).

Definition with_store (f : AuthStore -> AuthStore) : Eff World unit :=
  modify (fun w =>
    {| localStorage := localStorage w; authStore := f (authStore w);
       pathname := pathname w; trace := trace w |}).

(** Modelled from the spec: the setters of [stores/authStore], which is not
    among the sources.  The session store "is updated via simple
    assignment": each setter assigns its own field and no other. *)
Definition setUser (u : option User) : Eff World unit :=
  with_store (fun st =>
    {| user := u; isAuthenticated := isAuthenticated st;
       isInitialized := isInitialized st |}).

Definition setIsAuthenticated (b : bool) : Eff World unit :=
  with_store (fun st =>
    {| user := user st; isAuthenticated := b;
       isInitialized := isInitialized st |}).

Definition setIsInitialized (b : bool) : Eff World unit :=
  with_store (fun st =>
    {| user := user st; isAuthenticated := isAuthenticated st;
       isInitialized := b |}).

(** [router.replace(url)] and [router.push(url)]: the navigation is
    recorded and the router ends on the target route. *)
Definition navigate (e : Event) (url : string) : Eff World unit :=
  modify (fun w =>
    {| localStorage := localStorage w; authStore := authStore w;
       pathname := url; trace := trace w ++ [e] |}).

Definition router_replace (url : string) : Eff World unit :=
  navigate (RouterReplace url) url.

Definition router_push (url : string) : Eff World unit :=
  navigate (RouterPush url) url.

(** The remote service.  Its answer is outside the program: each call
    takes the answer the network gives it. *)
Definition authService_login (reply : JsError + LoginResponse)
    (username password : string) : Eff World LoginResponse :=
  (emit (ApiLogin username password) ;;;
   match reply with
   | inl e => throw e
   | inr response => ret response
   end)%eff.

Definition authService_logout (reply : option JsError) : Eff World unit :=
  (emit ApiLogout ;;;
   match reply with
   | Some e => throw e
   | None => ret tt
   end)%eff.

(** The condition of the redirect in [initAuth]. *)
Definition off_public_routes (p : string) : bool :=
  negb (String.eqb p "/login")
  && negb (String.eqb p "/register")
  && negb (String.eqb p "/forgot-password").

Definition initAuth : Eff World unit :=
  try_finally
    (try_catch
       (localStorage_removeItem "token" ;;;
        setUser None ;;;
        setIsAuthenticated false ;;;
        let! w := get in
        if off_public_routes (pathname w)
        then router_replace "/login"
        else ret tt)
       (fun error =>
          console_error "Failed to initialize auth:" error ;;;
          localStorage_removeItem "token" ;;;
          setUser None ;;;
          setIsAuthenticated false))%eff
    (setIsInitialized true).

(** The mount effect of [AuthProvider].  The effect has no dependencies, so
    the [isInitialized] it tests is the value that the render which created
    it read from the store, here [initialized], whatever the store holds
    when the effect runs. *)
Definition authEffect (initialized : bool) : Eff World unit :=
  (console_log "Auth initialization started" ;;;
   if initialized
   then console_log "Already initialized, skipping"
   else initAuth)%eff.

(** A mount of the provider: the component renders, reading the store, and
    the effect which that render created runs. *)
Definition mount : Eff World unit :=
  (let! w := get in
   authEffect (isInitialized (authStore w)))%eff.

Definition login (reply : JsError + LoginResponse)
    (username password : string) : Eff World User :=
  try_catch
    (console_log ("Login attempt with username: " ++ username) ;;;
     let! response := authService_login reply username password in
     localStorage_setItem "token" (token response) ;;;
     setUser (Some (response_user response)) ;;;
     setIsAuthenticated true ;;;
     ret (response_user response))%eff
    (fun error =>
       console_error "Login error:" error ;;;
       localStorage_removeItem "token" ;;;
       setUser None ;;;
       setIsAuthenticated false ;;;
       throw error)%eff.

Definition logout (reply : option JsError) : Eff World unit :=
  try_finally
    (try_catch
       (console_log "Logout initiated" ;;;
        authService_logout reply)
       (fun error => console_error "Logout error:" error))%eff
    (localStorage_removeItem "token" ;;;
     setUser None ;;;
     setIsAuthenticated false ;;;
     router_replace "/login")%eff.

(** [register]: the call to [authService.register] is commented out in the
    source, so nothing but the log and the navigation is left. *)
Definition register {A : Type} (userData : A) : Eff World unit :=
  (console_log "Register initiated with data:" ;;;
   router_push "/login")%eff.

(** *** Sequences of operations after a load *)

Inductive Op :=
| OpMount
| OpLogin (reply : JsError + LoginResponse) (username password : string)
| OpLogout (reply : option JsError)
| OpRegister (userData : list (string * string)).

Definition run_op (w : World) (o : Op) : World :=
  match o with
  | OpMount => exec mount w
  | OpLogin reply username password => exec (login reply username password) w
  | OpLogout reply => exec (logout reply) w
  | OpRegister userData => exec (register userData) w
  end.

Definition run_ops (ops : list Op) (w : World) : World :=
  fold_left run_op ops w.

Definition login_succeeded (o : Op) : bool :=
  match o with
  | OpLogin (inr _) _ _ => true
  | _ => false
  end.

(** The events that reach the network. *)
Definition is_network (e : Event) : bool :=
  match e with
  | ApiLogin _ _ | ApiLogout | ApiRegister => true
  | _ => false
  end.

(** The session invariant of the data model. *)
Definition session_ok (st : AuthStore) : Prop :=
  (exists u, user st = Some u /\ isAuthenticated st = true)
  \/ (user st = None /\ isAuthenticated st = false).

(** Nobody is signed in: the flag is down and no token is stored. *)
Definition signed_out (w : World) : Prop :=
  isAuthenticated (authStore w) = false /\ localStorage w !! "token" = None.

(** What [logout] writes to the trace before the redirect. *)
Definition logout_events (reply : option JsError) : list Event :=
  match reply with
  | Some e => [ConsoleLog "Logout initiated"; ApiLogout;
               ConsoleError "Logout error:" e]
  | None => [ConsoleLog "Logout initiated"; ApiLogout]
  end.

(** The events a computation adds to the trace of [w]. *)
Definition added {A} (m : Eff World A) (w : World) : list Event :=
  drop (length (trace w)) (trace (exec m w)).

(** *** What a sequence of operations amounts to *)

(** The network calls an operation makes. *)
Definition op_calls (o : Op) : list Event :=
  match o with
  | OpLogin _ username password => [ApiLogin username password]
  | OpLogout _ => [ApiLogout]
  | OpMount | OpRegister _ => []
  end.

(** The login response the session rests on after an operation, given the
    one it rested on before: a login that succeeds installs its response,
    a login that fails and a logout leave none, the rest keep it. *)
Definition op_session (s : option LoginResponse) (o : Op)
  : option LoginResponse :=
  match o with
  | OpLogin (inr r) _ _ => Some r
  | OpLogin (inl _) _ _ | OpLogout _ => None
  | OpMount | OpRegister _ => s
  end.

Definition session_after (ops : list Op) : option LoginResponse :=
  fold_left op_session ops None.

(** An initialized world whose store and storage hold exactly [s]. *)
Definition rests_on (s : option LoginResponse) (w : World) : Prop :=
  isInitialized (authStore w) = true
  /\ user (authStore w) = option_map response_user s
  /\ isAuthenticated (authStore w)
     = match s with Some _ => true | None => false end
  /\ localStorage w !! "token" = option_map token s.

Definition is_navigation (e : Event) : bool :=
  match e with
  | RouterReplace _ | RouterPush _ => true
  | _ => false
  end.

(** The events a sequence of operations adds to the trace of [w]. *)
Definition added_by (ops : list Op) (w : World) : list Event :=
  drop (length (trace w)) (trace (run_ops ops w)).

(** *** Sample data *)

Definition alice : User :=
  {| user_id := "u1"; fullName := "Alice Moreau"; email := "alice@example.mil";
     role := "Admin"; assignedBase := None; isActive := true |}.

Definition unreachable : JsError := ErrorValue "Network Error" None.

(** A page load that finds a token and a session left behind. *)
Definition stale_load (path : string) : World :=
  {| localStorage := {[ "token" := "old"; "theme" := "dark" ]};
     authStore :=
       {| user := Some alice; isAuthenticated := true;
          isInitialized := false |};
     pathname := path;
     trace := [] |}.


End Auth.

(** ** The transfer creation page *)

Module Transfer.

(** A JavaScript number, as an exact rational. *)
Definition Qgt_bool (x y : Q) : bool := negb (Qle_bool x y).

(** [Number.isInteger] *)
Definition is_integer (q : Q) : bool :=
  (Qnum q mod Z.pos (Qden q) =? 0)%Z.

(** Modelled from the spec: the [Asset] type of [types/asset], which is not
    among the sources.  "identity, name, type, owning base, available
    quantity", under the names the page reads them by. *)
Record Asset := {
  _id : string;
  name : string;
  type : string;
  base : string;
  available : Q;
}.

(** The value of the number input as Formik keeps it: the parsed number, or
    the empty string when the field does not parse. *)
Inductive NumberField :=
| Num (q : Q)
| Blank.

(** The coercion [>] applies to its operand: [Number('')] is [0]. *)
Definition toNumber (n : NumberField) : Q :=
  match n with
  | Num q => q
  | Blank => 0
  end.

Record FormValues := {
  asset : string;
  fromBase : string;
  toBase : string;
  quantity : NumberField;
  notes : string;
}.

(** The transfer the service answers with; the page reads three fields. *)
Record Transfer := {
  transfer_id : string;
  transfer_quantity : Q;
  assetName : string;
}.

(** *** Validation: [TransferSchema]

    Yup runs the tests of each field; Formik hands it the values with
    empty strings turned into [undefined], so an empty field is an absent
    one.  Every test but [required] passes on an absent value.  The result
    lists the failing tests as (path, message), in the order of the schema;
    the form is valid when none fails. *)

Definition ValidationError : Type := string * string.

Definition string_required (msg : string) (v : string) : list string :=
  if String.eqb v "" then [msg] else [].

(** [.notOneOf([Yup.ref(r)], msg)], the reference already resolved. *)
Definition notOneOf (refs : list string) (msg : string) (v : string)
  : list string :=
  if existsb (String.eqb v) refs then [msg] else [].

Definition number_required (msg : string) (n : NumberField) : list string :=
  match n with
  | Num _ => []
  | Blank => [msg]
  end.

Definition positive (msg : string) (n : NumberField) : list string :=
  match n with
  | Num q => if Qgt_bool q 0 then [] else [msg]
  | Blank => []
  end.

Definition integer (msg : string) (n : NumberField) : list string :=
  match n with
  | Num q => if is_integer q then [] else [msg]
  | Blank => []
  end.

Definition at_path (path : string) (msgs : list string)
  : list ValidationError :=
  map (fun msg => (path, msg)) msgs.

Definition TransferSchema (values : FormValues) : list ValidationError :=
  at_path "asset" (string_required "Asset is required" (asset values))
  ++ at_path "fromBase"
       (string_required "From Base is required" (fromBase values))
  ++ at_path "toBase"
       (string_required "To Base is required" (toBase values)
        ++ notOneOf [fromBase values]
             "To Base must be different from From Base" (toBase values))
  ++ at_path "quantity"
       (number_required "Quantity is required" (quantity values)
        ++ positive "Quantity must be positive" (quantity values)
        ++ integer "Quantity must be a whole number" (quantity values))
  ++ at_path "notes" [].

Definition isValid (values : FormValues) : bool :=
  match TransferSchema values with
  | [] => true
  | _ :: _ => false
  end.

(** *** The page state and its effects *)

(** A message shown to the user: a literal, or one of the two templates
    of the page with the numbers it interpolates. *)
Inductive Text :=
| Lit (s : string)
| CannotTransferMoreThan (available : Q)
| TransferPendingApproval (quantity : Q) (assetName : string).

Inductive Event :=
| ConsoleError (msg : string) (e : JsError)
| ToastError (msg : Text)
| ToastSuccess (msg : string)
| AddNotification (type title : string) (msg : Text)
| RouterPush (url : string)
| ApiGetAssets (limit : Z)
| ApiCreateTransfer (values : FormValues).

Record Page := {
  user : option User;
  assetId : option string;
  isLoading : bool;
  isSubmitting : bool;
  availableAssets : list Asset;
  selectedAsset : option Asset;
  values : FormValues;
  trace : list Event;
}.

Definition emit (e : Event) : Eff Page unit :=
  modify (fun p =>
    {| user := user p; assetId := assetId p; isLoading := isLoading p;
       isSubmitting := isSubmitting p;
       availableAssets := availableAssets p;
       selectedAsset := selectedAsset p; values := values p;
       trace := trace p ++ [e] |}).

Definition setIsLoading (b : bool) : Eff Page unit :=
  modify (fun p =>
    {| user := user p; assetId := assetId p; isLoading := b;
       isSubmitting := isSubmitting p;
       availableAssets := availableAssets p;
       selectedAsset := selectedAsset p; values := values p;
       trace := trace p |}).

Definition setIsSubmitting (b : bool) : Eff Page unit :=
  modify (fun p =>
    {| user := user p; assetId := assetId p; isLoading := isLoading p;
       isSubmitting := b;
       availableAssets := availableAssets p;
       selectedAsset := selectedAsset p; values := values p;
       trace := trace p |}).

Definition setAvailableAssets (l : list Asset) : Eff Page unit :=
  modify (fun p =>
    {| user := user p; assetId := assetId p; isLoading := isLoading p;
       isSubmitting := isSubmitting p;
       availableAssets := l;
       selectedAsset := selectedAsset p; values := values p;
       trace := trace p |}).

Definition setSelectedAsset (a : option Asset) : Eff Page unit :=
  modify (fun p =>
    {| user := user p; assetId := assetId p; isLoading := isLoading p;
       isSubmitting := isSubmitting p;
       availableAssets := availableAssets p;
       selectedAsset := a; values := values p;
       trace := trace p |}).

Definition with_values (f : FormValues -> FormValues) : Eff Page unit :=
  modify (fun p =>
    {| user := user p; assetId := assetId p; isLoading := isLoading p;
       isSubmitting := isSubmitting p;
       availableAssets := availableAssets p;
       selectedAsset := selectedAsset p; values := f (values p);
       trace := trace p |}).

(** [formik.setFieldValue('asset', v)] and [('fromBase', v)] *)
Definition setFieldValue_asset (v : string) : Eff Page unit :=
  with_values (fun vs =>
    {| asset := v; fromBase := fromBase vs; toBase := toBase vs;
       quantity := quantity vs; notes := notes vs |}).

Definition setFieldValue_fromBase (v : string) : Eff Page unit :=
  with_values (fun vs =>
    {| asset := asset vs; fromBase := v; toBase := toBase vs;
       quantity := quantity vs; notes := notes vs |}).

Definition toast_error (msg : Text) : Eff Page unit := emit (ToastError msg).
Definition toast_success (msg : string) : Eff Page unit :=
  emit (ToastSuccess msg).
Definition console_error (msg : string) (e : JsError) : Eff Page unit :=
  emit (ConsoleError msg e).
Definition router_push (url : string) : Eff Page unit :=
  emit (RouterPush url).
Definition addNotification (type title : string) (msg : Text)
  : Eff Page unit :=
  emit (AddNotification type title msg).

(** The remote services; each call takes the answer the network gives. *)
Definition assetService_getAssets (reply : JsError + list Asset)
    (limit : Z) : Eff Page (list Asset) :=
  (emit (ApiGetAssets limit) ;;;
   match reply with
   | inl e => throw e
   | inr assets => ret assets
   end)%eff.

Definition transferService_createTransfer (reply : JsError + Transfer)
    (values : FormValues) : Eff Page Transfer :=
  (emit (ApiCreateTransfer values) ;;;
   match reply with
   | inl e => throw e
   | inr t => ret t
   end)%eff.

(** Truthiness of an optional string. *)
Definition truthy (s : option string) : option string :=
  match s with
  | Some v => if String.eqb v "" then None else Some v
  | None => None
  end.

(** [user?.role === 'LogisticsOfficer' && user.assignedBase] *)
Definition officer_base (u : option User) : option string :=
  match u with
  | Some u =>
      if String.eqb (role u) "LogisticsOfficer"
      then truthy (assignedBase u)
      else None
  | None => None
  end.

(** The two client-side filters of [fetchAssets]. *)
Definition filterAssets (u : option User) (assets : list Asset)
  : list Asset :=
  let filteredAssets :=
    match officer_base u with
    | Some b => List.filter (fun a => String.eqb (base a) b) assets
    | None => assets
    end in
  List.filter (fun a => Qgt_bool (available a) 0) filteredAssets.

Definition fetchAssets (reply : JsError + list Asset) : Eff Page unit :=
  (setIsLoading true ;;;
   try_finally
     (try_catch
        (let! response := assetService_getAssets reply 100 in
         let! p := get in
         let filteredAssets := filterAssets (user p) response in
         setAvailableAssets filteredAssets ;;;
         match truthy (assetId p) with
         | Some i =>
             match List.find (fun a => String.eqb (_id a) i)
                     filteredAssets with
             | Some a =>
                 setSelectedAsset (Some a) ;;;
                 setFieldValue_asset (_id a) ;;;
                 setFieldValue_fromBase (base a)
             | None => ret tt
             end
         | None => ret tt
         end)
        (fun error =>
           console_error "Error fetching assets:" error ;;;
           toast_error (Lit "Failed to load assets")))
     (setIsLoading false))%eff.

(** The effect that fetches the assets once a user is known. *)
Definition fetchEffect (reply : JsError + list Asset) : Eff Page unit :=
  (let! p := get in
   match user p with
   | Some _ => fetchAssets reply
   | None => ret tt
   end)%eff.

(** The effect that follows [formik.values.asset]. *)
Definition selectionEffect : Eff Page unit :=
  (let! p := get in
   let found :=
     List.find (fun a => String.eqb (_id a) (asset (values p)))
       (availableAssets p) in
   setSelectedAsset found ;;;
   match found with
   | Some a => setFieldValue_fromBase (base a)
   | None => ret tt
   end)%eff.

(** [error.response?.data?.error || 'Failed to create transfer'].  The
    read of [error.response] is not guarded: on [null] or [undefined] it
    throws. *)
Definition error_text (e : JsError) : Eff Page Text :=
  match e with
  | Nullish => throw (TypeError "response")
  | TypeError _ => ret (Lit "Failed to create transfer")
  | ErrorValue _ response_data_error =>
      match truthy response_data_error with
      | Some s => ret (Lit s)
      | None => ret (Lit "Failed to create transfer")
      end
  end.

(** The statements of [onSubmit] after the availability check. *)
Definition createAndShow (reply : JsError + Transfer) (vs : FormValues)
  : Eff Page unit :=
  (let! newTransfer := transferService_createTransfer reply vs in
   addNotification "success" "Transfer Created"
     (TransferPendingApproval (transfer_quantity newTransfer)
        (assetName newTransfer)) ;;;
   toast_success "Transfer created successfully" ;;;
   router_push ("/transfers/" ++ transfer_id newTransfer))%eff.

Definition onSubmit (reply : JsError + Transfer) (vs : FormValues)
  : Eff Page unit :=
  try_finally
    (try_catch
       (setIsSubmitting true ;;;
        let! p := get in
        match selectedAsset p with
        | Some a =>
            if Qgt_bool (toNumber (quantity vs)) (available a)
            then
              toast_error (CannotTransferMoreThan (available a)) ;;;
              setIsSubmitting false
            else createAndShow reply vs
        | None => createAndShow reply vs
        end)
       (fun error =>
          console_error "Error creating transfer:" error ;;;
          let! text := error_text error in
          toast_error text))%eff
    (setIsSubmitting false).

(** Formik's [handleSubmit]: the values are validated against the schema
    and [onSubmit] is called only when no test fails. *)
Definition handleSubmit (reply : JsError + Transfer) : Eff Page unit :=
  (let! p := get in
   if isValid (values p)
   then onSubmit reply (values p)
   else ret tt)%eff.

Definition is_network (e : Event) : bool :=
  match e with
  | ApiGetAssets _ | ApiCreateTransfer _ => true
  | _ => false
  end.

Definition is_createTransfer (e : Event) : bool :=
  match e with
  | ApiCreateTransfer _ => true
  | _ => false
  end.

Definition is_toast_error (e : Event) : bool :=
  match e with
  | ToastError _ => true
  | _ => false
  end.

(** [initialValues] of the form. *)
Definition initialValues (u : option User) (assetId : option string)
  : FormValues :=
  {| asset := match truthy assetId with Some i => i | None => "" end;
     fromBase := match officer_base u with Some b => b | None => "" end;
     toBase := "";
     quantity := Num 1;
     notes := "" |}.

(** [formik.handleChange] on the destination select and on the quantity
    input. *)
Definition handleChange_toBase (v : string) : Eff Page unit :=
  with_values (fun vs =>
    {| asset := asset vs; fromBase := fromBase vs; toBase := v;
       quantity := quantity vs; notes := notes vs |}).

Definition handleChange_quantity (n : NumberField) : Eff Page unit :=
  with_values (fun vs =>
    {| asset := asset vs; fromBase := fromBase vs; toBase := toBase vs;
       quantity := n; notes := notes vs |}).

(** The events a computation adds to the trace of [p]. *)
Definition added {A} (m : Eff Page A) (p : Page) : list Event :=
  drop (length (trace p)) (trace (exec m p)).

(** What [onSubmit] writes to the trace once it reaches the remote call. *)
Definition create_events (reply : JsError + Transfer) (vs : FormValues)
  : list Event :=
  match reply with
  | inr t =>
      [ApiCreateTransfer vs;
       AddNotification "success" "Transfer Created"
         (TransferPendingApproval (transfer_quantity t) (assetName t));
       ToastSuccess "Transfer created successfully";
       RouterPush ("/transfers/" ++ transfer_id t)]
  | inl e =>
      ApiCreateTransfer vs
      :: ConsoleError "Error creating transfer:" e
      :: match e with
         | Nullish => []
         | TypeError _ => [ToastError (Lit "Failed to create transfer")]
         | ErrorValue _ response_data_error =>
             match truthy response_data_error with
             | Some s => [ToastError (Lit s)]
             | None => [ToastError (Lit "Failed to create transfer")]
             end
         end
  end.

(** *** The rest of the page *)

(** [const bases] *)
Definition bases : list string :=
  ["Base Alpha"; "Base Bravo"; "Base Charlie"].

(** [user && user.role !== 'Admin' && user.role !== 'LogisticsOfficer'],
    the test of the permission effect and of the render guard. *)
Definition forbidden (u : option User) : bool :=
  match u with
  | Some u =>
      negb (String.eqb (role u) "Admin")
      && negb (String.eqb (role u) "LogisticsOfficer")
  | None => false
  end.

(** The effect that checks the permission to create transfers. *)
Definition permissionEffect : Eff Page unit :=
  (let! p := get in
   if forbidden (user p)
   then
     toast_error (Lit "You do not have permission to create transfers") ;;;
     router_push "/transfers"
   else ret tt)%eff.

(** What the component returns: nothing, the loading screen, the note that
    no asset is available, or the form. *)
Inductive View :=
| ViewNothing
| ViewLoading
| ViewNoAssets
| ViewForm.

Definition render (p : Page) : View :=
  if forbidden (user p) then ViewNothing
  else if isLoading p && (length (availableAssets p) =? 0)%nat
  then ViewLoading
  else if (length (availableAssets p) =? 0)%nat then ViewNoAssets
  else ViewForm.

(** The options of the destination select, the placeholder apart. *)
Definition toBase_options (p : Page) : list string :=
  List.filter (fun base => negb (String.eqb base (fromBase (values p))))
    bases.

(** [disabled] of the source base select:
    [user?.role === 'LogisticsOfficer' && !!user.assignedBase || !!selectedAsset] *)
Definition fromBase_disabled (p : Page) : bool :=
  match officer_base (user p) with Some _ => true | None => false end
  || match selectedAsset p with Some _ => true | None => false end.

(** [max={selectedAsset?.available || 1}] of the quantity input. *)
Definition quantity_max (p : Page) : Q :=
  match selectedAsset p with
  | Some a => if Qeq_bool (available a) 0 then 1 else available a
  | None => 1
  end.

(** *** What a submission amounts to *)

(** The availability [onSubmit] turns the values down with, if it does. *)
Definition rejection (p : Page) (vs : FormValues) : option Q :=
  match selectedAsset p with
  | Some a =>
      if Qgt_bool (toNumber (quantity vs)) (available a)
      then Some (available a)
      else None
  | None => None
  end.

Definition submit_events (reply : JsError + Transfer) (vs : FormValues)
    (p : Page) : list Event :=
  match rejection p vs with
  | Some av => [ToastError (CannotTransferMoreThan av)]
  | None => create_events reply vs
  end.

(** *** Sample data *)

Definition officer : User :=
  {| user_id := "u7"; fullName := "Dana Reyes"; email := "dana@example.mil";
     role := "LogisticsOfficer"; assignedBase := Some "Base Alpha";
     isActive := true |}.

Definition crates : Asset :=
  {| _id := "a1"; name := "Ration crate"; type := "Supplies";
     base := "Base Alpha"; available := 3 |}.

Definition trucks : Asset :=
  {| _id := "a2"; name := "Cargo truck"; type := "Vehicle";
     base := "Base Alpha"; available := 0 |}.

(** The page as it mounts for [/transfers/new?asset=i]. *)
Definition mounted (i : option string) : Page :=
  {| user := Some officer; assetId := i; isLoading := true;
     isSubmitting := false; availableAssets := []; selectedAsset := None;
     values := initialValues (Some officer) i; trace := [] |}.

(** The page after the assets arrived and the user picked a destination
    and a quantity. *)
Definition filled (i : option string) (dest : string) (n : NumberField)
  : Page :=
  exec (handleChange_quantity n)
    (exec (handleChange_toBase dest)
       (exec selectionEffect
          (exec (fetchEffect (inr [crates; trucks])) (mounted i)))).

End Transfer.

(** * Properties of the session flow *)

Lemma drop_own_length {A} (l k : list A) : drop (length l) (l ++ k) = k.
Proof. now rewrite drop_app_length. Qed.

Module AuthSpec.
Import Auth.

(** ** What each operation computes *)

Lemma initAuth_run (w : World) :
  initAuth w =
  (Normal tt,
   {| localStorage := delete "token" (localStorage w);
      authStore :=
        {| user := None; isAuthenticated := false; isInitialized := true |};
      pathname :=
        if off_public_routes (pathname w) then "/login" else pathname w;
      trace :=
        if off_public_routes (pathname w)
        then trace w ++ [RouterReplace "/login"]
        else trace w |}).
Proof.
  unfold initAuth, try_finally, try_catch, bind, get; cbn.
  destruct (off_public_routes (pathname w)); reflexivity.
Qed.

Lemma mount_skip (w : World) :
  isInitialized (authStore w) = true ->
  mount w =
  (Normal tt,
   {| localStorage := localStorage w; authStore := authStore w;
      pathname := pathname w;
      trace := (trace w ++ [ConsoleLog "Auth initialization started"])
               ++ [ConsoleLog "Already initialized, skipping"] |}).
Proof.
  intros Hinit. unfold mount, authEffect, bind, get; cbn. rewrite Hinit.
  reflexivity.
Qed.

Lemma mount_init (w : World) :
  isInitialized (authStore w) = false ->
  mount w =
  initAuth
    {| localStorage := localStorage w; authStore := authStore w;
       pathname := pathname w;
       trace := trace w ++ [ConsoleLog "Auth initialization started"] |}.
Proof.
  intros Hinit. unfold mount, authEffect, bind, get; cbn. rewrite Hinit.
  reflexivity.
Qed.

Lemma login_resolve_run (w : World) (r : LoginResponse) (u p : string) :
  login (inr r) u p w =
  (Normal (response_user r),
   {| localStorage := <["token" := token r]> (localStorage w);
      authStore :=
        {| user := Some (response_user r); isAuthenticated := true;
           isInitialized := isInitialized (authStore w) |};
      pathname := pathname w;
      trace := (trace w ++ [ConsoleLog ("Login attempt with username: " ++ u)])
               ++ [ApiLogin u p] |}).
Proof. reflexivity. Qed.

Lemma login_reject_run (w : World) (e : JsError) (u p : string) :
  login (inl e) u p w =
  (Throw e,
   {| localStorage := delete "token" (localStorage w);
      authStore :=
        {| user := None; isAuthenticated := false;
           isInitialized := isInitialized (authStore w) |};
      pathname := pathname w;
      trace := ((trace w ++ [ConsoleLog ("Login attempt with username: " ++ u)])
                ++ [ApiLogin u p])
               ++ [ConsoleError "Login error:" e] |}).
Proof. reflexivity. Qed.

Lemma logout_run (w : World) (reply : option JsError) :
  logout reply w =
  (Normal tt,
   {| localStorage := delete "token" (localStorage w);
      authStore :=
        {| user := None; isAuthenticated := false;
           isInitialized := isInitialized (authStore w) |};
      pathname := "/login";
      trace := (trace w ++ logout_events reply) ++ [RouterReplace "/login"] |}).
Proof.
  destruct reply as [e|];
    unfold logout, try_finally, try_catch, bind; cbn;
    rewrite <- !app_assoc; reflexivity.
Qed.

Lemma register_run {A : Type} (userData : A) (w : World) :
  register userData w =
  (Normal tt,
   {| localStorage := localStorage w; authStore := authStore w;
      pathname := "/login";
      trace := (trace w ++ [ConsoleLog "Register initiated with data:"])
               ++ [RouterPush "/login"] |}).
Proof. reflexivity. Qed.


(** ** The state in which nobody is signed in *)

Lemma initAuth_signed_out (w : World) : signed_out (exec initAuth w).
Proof.
  unfold exec, signed_out. rewrite initAuth_run. cbn.
  split; [reflexivity | apply lookup_delete_eq].
Qed.

Lemma mount_signed_out (w : World) :
  isInitialized (authStore w) = false -> signed_out (exec mount w).
Proof.
  intros Hinit. unfold exec. rewrite (mount_init w Hinit).
  apply initAuth_signed_out.
Qed.

Lemma run_op_signed_out (w : World) (o : Op) :
  login_succeeded o = false -> signed_out w -> signed_out (run_op w o).
Proof.
  intros Hfail [Hauth Htok].
  destruct o as [|[e|r] u p|reply|d]; cbn in Hfail; try discriminate;
    unfold run_op, exec.
  - destruct (isInitialized (authStore w)) eqn:Hinit.
    + rewrite (mount_skip w Hinit). split; assumption.
    + now apply mount_signed_out.
  - rewrite login_reject_run. split; [reflexivity | apply lookup_delete_eq].
  - rewrite logout_run. split; [reflexivity | apply lookup_delete_eq].
  - rewrite register_run. split; assumption.
Qed.

Lemma run_ops_signed_out (ops : list Op) (w : World) :
  existsb login_succeeded ops = false ->
  signed_out w -> signed_out (run_ops ops w).
Proof.
  revert w. induction ops as [|o ops IH]; intros w Hnone Hw; [exact Hw|].
  cbn in Hnone. apply orb_false_iff in Hnone as [Ho Hops].
  cbn. apply IH; [exact Hops|]. now apply run_op_signed_out.
Qed.

(** ** The scenarios of the specification, run *)

Example load_on_protected_route :
  added mount (stale_load "/assets")
  = [ConsoleLog "Auth initialization started"; RouterReplace "/login"].
Proof. reflexivity. Qed.

Example load_on_public_route :
  added mount (stale_load "/register")
  = [ConsoleLog "Auth initialization started"]
  /\ pathname (exec mount (stale_load "/register")) = "/register".
Proof. split; reflexivity. Qed.

Example load_keeps_other_keys :
  localStorage (exec mount (stale_load "/assets")) !! "theme"
  = Some "dark".
Proof. vm_compute. reflexivity. Qed.

Example login_t1 :
  let w := exec (login (inr {| token := "t1"; response_user := alice |})
                   "alice" "pw")
             (exec mount (stale_load "/login")) in
  localStorage w !! "token" = Some "t1"
  /\ isAuthenticated (authStore w) = true.
Proof. split; vm_compute; reflexivity. Qed.

(** ** The claims *)

(** C1.  After any load, once the mount effect has run, and whatever
    operations follow it, the session is not authenticated and local
    storage has no ["token"] entry, as long as none of these operations
    is a login that succeeded. *)
Theorem signed_out_after_load (w : World) (ops : list Op) :
  isInitialized (authStore w) = false ->
  existsb login_succeeded ops = false ->
  isAuthenticated (authStore (run_ops ops (exec mount w))) = false
  /\ localStorage (run_ops ops (exec mount w)) !! "token" = None.
Proof.
  intros Hinit Hnone.
  apply (run_ops_signed_out ops _ Hnone).
  now apply mount_signed_out.
Qed.

Lemma signed_out_after_load_witness :
  let ops := [OpLogin (inl unreachable) "alice" "pw"; OpRegister [];
              OpLogout (Some unreachable); OpMount] in
  isInitialized (authStore (stale_load "/assets")) = false
  /\ existsb login_succeeded ops = false
  /\ isAuthenticated
       (authStore (run_ops ops (exec mount (stale_load "/assets"))))
     = false
  /\ localStorage (run_ops ops (exec mount (stale_load "/assets")))
       !! "token" = None.
Proof.
  intros ops. split; [reflexivity|]. split; [reflexivity|].
  apply (signed_out_after_load (stale_load "/assets") ops); reflexivity.
Defined.

(** C2.  A login the service answers with [{token, user}] leaves exactly
    that token under ["token"], that user as the current user and the
    session authenticated, and resolves with that user. *)
Theorem login_success (w : World) (r : LoginResponse) (u p : string) :
  outcome (login (inr r) u p) w = Normal (response_user r)
  /\ localStorage (exec (login (inr r) u p) w)
     = <["token" := token r]> (localStorage w)
  /\ localStorage (exec (login (inr r) u p) w) !! "token" = Some (token r)
  /\ user (authStore (exec (login (inr r) u p) w)) = Some (response_user r)
  /\ isAuthenticated (authStore (exec (login (inr r) u p) w)) = true.
Proof.
  unfold outcome, exec. rewrite login_resolve_run. cbn.
  repeat split. apply lookup_insert_eq.
Qed.

(** C3.  A login whose service call fails with [e] removes the token,
    leaves no current user and an unauthenticated session, and rejects
    with the same [e]. *)
Theorem login_failure (w : World) (e : JsError) (u p : string) :
  outcome (login (inl e) u p) w = Throw e
  /\ localStorage (exec (login (inl e) u p) w) !! "token" = None
  /\ user (authStore (exec (login (inl e) u p) w)) = None
  /\ isAuthenticated (authStore (exec (login (inl e) u p) w)) = false.
Proof.
  unfold outcome, exec. rewrite login_reject_run. cbn.
  repeat split. apply lookup_delete_eq.
Qed.

(** C4.  Whatever the remote logout call does, [logout] completes
    normally, the token is gone, there is no current user, the session is
    unauthenticated and the last thing done is the redirect to [/login]. *)
Theorem logout_always_clears (w : World) (reply : option JsError) :
  outcome (logout reply) w = Normal tt
  /\ localStorage (exec (logout reply) w) !! "token" = None
  /\ user (authStore (exec (logout reply) w)) = None
  /\ isAuthenticated (authStore (exec (logout reply) w)) = false
  /\ pathname (exec (logout reply) w) = "/login"
  /\ added (logout reply) w = logout_events reply ++ [RouterReplace "/login"].
Proof.
  unfold added, outcome, exec. rewrite logout_run. cbn.
  repeat split.
  - apply lookup_delete_eq.
  - rewrite <- app_assoc. apply drop_own_length.
Qed.




(** C8.  [register] completes with a push of [/login]; it adds no network
    call to the trace and leaves storage and store as they were. *)
Theorem register_only_navigates {A : Type} (userData : A) (w : World) :
  outcome (register userData) w = Normal tt
  /\ added (register userData) w
     = [ConsoleLog "Register initiated with data:"; RouterPush "/login"]
  /\ List.filter is_network (added (register userData) w) = []
  /\ ~ In ApiRegister (added (register userData) w)
  /\ pathname (exec (register userData) w) = "/login"
  /\ localStorage (exec (register userData) w) = localStorage w
  /\ authStore (exec (register userData) w) = authStore w.
Proof.
  assert (Hadd : added (register userData) w =
                 [ConsoleLog "Register initiated with data:";
                  RouterPush "/login"]).
  { unfold added, exec. rewrite register_run. cbn.
    rewrite <- app_assoc. apply drop_own_length. }
  rewrite Hadd. unfold outcome, exec. rewrite register_run. cbn.
  split; [reflexivity|]. split; [reflexivity|]. split; [reflexivity|].
  split; [|repeat split]. intros [Hin|[Hin|[]]]; discriminate.
Qed.

(** C9.  From any state, initialization, a login (whatever the service
    answers) and a logout (whatever the service answers) each leave the
    store with a user and the flag up, or with no user and the flag
    down. *)
Theorem session_invariant (w : World) :
  session_ok (authStore (exec initAuth w))
  /\ (forall reply u p, session_ok (authStore (exec (login reply u p) w)))
  /\ (forall reply, session_ok (authStore (exec (logout reply) w))).
Proof.
  unfold exec. repeat split.
  - rewrite initAuth_run. right. split; reflexivity.
  - intros [e|r] u p.
    + rewrite login_reject_run. right. split; reflexivity.
    + rewrite login_resolve_run. left. eexists. split; reflexivity.
  - intros reply. rewrite logout_run. right. split; reflexivity.
Qed.

End AuthSpec.

(** * Properties of the transfer page *)

Module TransferSpec.
Import Transfer.

Lemma Qgt_bool_true (x y : Q) : Qgt_bool x y = true <-> (y < x)%Q.
Proof.
  unfold Qgt_bool. rewrite negb_true_iff. split.
  - intros Hle. apply Qnot_le_lt. intros Hxy.
    apply Qle_bool_iff in Hxy. congruence.
  - intros Hlt. destruct (Qle_bool x y) eqn:Hle; [|reflexivity].
    apply Qle_bool_iff in Hle. exfalso. exact (Qlt_not_le _ _ Hlt Hle).
Qed.

(** ** What the submit handler computes *)

Lemma onSubmit_exceeds (p : Page) (a : Asset) (vs : FormValues)
    (reply : JsError + Transfer) :
  selectedAsset p = Some a ->
  Qgt_bool (toNumber (quantity vs)) (available a) = true ->
  onSubmit reply vs p =
  (Normal tt,
   {| user := user p; assetId := assetId p; isLoading := isLoading p;
      isSubmitting := false; availableAssets := availableAssets p;
      selectedAsset := selectedAsset p; values := values p;
      trace := trace p ++ [ToastError (CannotTransferMoreThan (available a))]
   |}).
Proof.
  intros Hsel Hgt.
  unfold onSubmit, try_finally, try_catch, bind, get; cbn.
  rewrite Hsel, Hgt. reflexivity.
Qed.

Lemma onSubmit_unselected (p : Page) (vs : FormValues)
    (reply : JsError + Transfer) :
  selectedAsset p = None ->
  trace (exec (onSubmit reply vs) p) = trace p ++ create_events reply vs
  /\ isSubmitting (exec (onSubmit reply vs) p) = false.
Proof.
  intros Hsel.
  unfold exec, onSubmit, try_finally, try_catch, bind, get; cbn.
  rewrite Hsel.
  destruct reply as [[| |m [r|]]|t]; cbn; try destruct (String.eqb r "");
    cbn; rewrite <- ?app_assoc; repeat split.
Qed.

Lemma handleSubmit_valid (p : Page) (reply : JsError + Transfer) :
  isValid (values p) = true ->
  handleSubmit reply p = onSubmit reply (values p) p.
Proof.
  intros Hv. unfold handleSubmit, bind, get. now rewrite Hv.
Qed.

Lemma handleSubmit_invalid (p : Page) (reply : JsError + Transfer) :
  isValid (values p) = false ->
  handleSubmit reply p = (Normal tt, p).
Proof.
  intros Hv. unfold handleSubmit, bind, get. now rewrite Hv.
Qed.

Lemma added_nothing {A} (m : Eff Page A) (p : Page) :
  exec m p = p -> added m p = [].
Proof.
  intros Hsame. unfold added. rewrite Hsame.
  rewrite <- (app_nil_r (trace p)) at 2. apply drop_own_length.
Qed.

(** ** The scenarios of the specification, run *)

Example fetch_keeps_available_only :
  availableAssets (filled None "Base Bravo" (Num 1)) = [crates].
Proof. reflexivity. Qed.

Example five_of_three :
  added (handleSubmit (inl Auth.unreachable))
    (filled (Some "a1") "Base Bravo" (Num 5))
  = [ToastError (CannotTransferMoreThan 3)].
Proof. reflexivity. Qed.

Example three_of_three :
  List.filter is_network
    (added (handleSubmit (inl Auth.unreachable))
       (filled (Some "a1") "Base Bravo" (Num 3)))
  = [ApiCreateTransfer
       {| asset := "a1"; fromBase := "Base Alpha"; toBase := "Base Bravo";
          quantity := Num 3; notes := "" |}].
Proof. reflexivity. Qed.

Example half_is_not_whole :
  TransferSchema
    {| asset := "a1"; fromBase := "Base Alpha"; toBase := "Base Bravo";
       quantity := Num (1 # 2); notes := "" |}
  = [("quantity", "Quantity must be a whole number")].
Proof. reflexivity. Qed.

(** ** The claims *)

(** C6.  Values whose destination base is their source base fail the
    schema, and submitting a form that holds them calls nothing. *)
Theorem same_base_invalid (vs : FormValues) :
  toBase vs = fromBase vs ->
  isValid vs = false
  /\ In "toBase" (map fst (TransferSchema vs))
  /\ (forall p reply, values p = vs -> handleSubmit reply p = (Normal tt, p)).
Proof.
  intros Hsame.
  assert (Hto : exists msg rest,
             string_required "To Base is required" (toBase vs)
             ++ notOneOf [fromBase vs]
                  "To Base must be different from From Base" (toBase vs)
             = msg :: rest).
  { unfold string_required, notOneOf. rewrite Hsame. cbn.
    rewrite String.eqb_refl. cbn.
    destruct (String.eqb (fromBase vs) ""); cbn; eauto. }
  destruct Hto as (msg & rest & Hto).
  assert (Hin : In "toBase" (map fst (TransferSchema vs))).
  { unfold TransferSchema. rewrite Hto. rewrite !map_app.
    apply in_or_app; right. apply in_or_app; right.
    apply in_or_app; left. cbn. now left. }
  assert (Hinvalid : isValid vs = false).
  { unfold isValid. destruct (TransferSchema vs); [destruct Hin | reflexivity]. }
  repeat split; try assumption.
  intros p reply Hp. apply handleSubmit_invalid. now rewrite Hp.
Qed.

Lemma same_base_invalid_witness :
  let vs := {| asset := "a1"; fromBase := "Base Alpha";
               toBase := "Base Alpha"; quantity := Num 1; notes := "" |} in
  toBase vs = fromBase vs /\ isValid vs = false.
Proof.
  intros vs. split; [reflexivity|].
  exact (proj1 (same_base_invalid vs eq_refl)).
Defined.

(** C7.  When an asset is selected and the quantity is above what it has
    available, [onSubmit] shows the error toast and nothing else: the
    transfer-creation call is not made, whether the handler is called
    directly or through the form's submit. *)
Theorem exceeding_quantity_rejected (p : Page) (a : Asset)
    (vs : FormValues) (reply : JsError + Transfer) :
  selectedAsset p = Some a ->
  (available a < toNumber (quantity vs))%Q ->
  outcome (onSubmit reply vs) p = Normal tt
  /\ added (onSubmit reply vs) p
     = [ToastError (CannotTransferMoreThan (available a))]
  /\ List.filter is_network (added (onSubmit reply vs) p) = []
  /\ isSubmitting (exec (onSubmit reply vs) p) = false
  /\ (values p = vs ->
      List.filter is_network (added (handleSubmit reply) p) = []).
Proof.
  intros Hsel Hlt. apply Qgt_bool_true in Hlt.
  assert (Hadd : added (onSubmit reply vs) p
                 = [ToastError (CannotTransferMoreThan (available a))]).
  { unfold added, exec. rewrite (onSubmit_exceeds p a vs reply Hsel Hlt).
    cbn. apply drop_own_length. }
  rewrite Hadd. unfold outcome, exec.
  rewrite (onSubmit_exceeds p a vs reply Hsel Hlt). cbn.
  repeat split.
  intros Hp. destruct (isValid (values p)) eqn:Hv.
  - unfold added, exec. rewrite (handleSubmit_valid p reply Hv), Hp.
    fold (exec (onSubmit reply vs) p). fold (added (onSubmit reply vs) p).
    now rewrite Hadd.
  - rewrite added_nothing; [reflexivity|].
    unfold exec. now rewrite (handleSubmit_invalid p reply Hv).
Qed.

Lemma exceeding_quantity_rejected_witness :
  let p := filled (Some "a1") "Base Bravo" (Num 5) in
  let t := {| transfer_id := "t9"; transfer_quantity := 5;
              assetName := "Ration crate" |} in
  selectedAsset p = Some crates
  /\ (available crates < toNumber (quantity (values p)))%Q
  /\ added (onSubmit (inr t) (values p)) p
     = [ToastError (CannotTransferMoreThan 3)].
Proof.
  intros p t. split; [reflexivity|]. split; [reflexivity|].
  exact (proj1 (proj2
           (exceeding_quantity_rejected p crates (values p) (inr t)
              eq_refl eq_refl))).
Defined.

(** C10.  With no asset selected, the submit handler makes no availability
    comparison: values that pass the schema go to the transfer-creation
    call, and no quantity toast is shown, whatever the quantity. *)
Theorem unselected_skips_check (p : Page) (reply : JsError + Transfer) :
  selectedAsset p = None ->
  isValid (values p) = true ->
  added (handleSubmit reply) p = create_events reply (values p)
  /\ head (added (handleSubmit reply) p) = Some (ApiCreateTransfer (values p))
  /\ (forall q, ~ In (ToastError (CannotTransferMoreThan q))
                   (added (handleSubmit reply) p)).
Proof.
  intros Hsel Hv.
  assert (Hadd : added (handleSubmit reply) p
                 = create_events reply (values p)).
  { unfold added, exec. rewrite (handleSubmit_valid p reply Hv).
    destruct (onSubmit_unselected p (values p) reply Hsel) as (Htr & _).
    unfold exec in Htr. rewrite Htr. apply drop_own_length. }
  rewrite Hadd. repeat split.
  - destruct reply; reflexivity.
  - intros q Hin. destruct reply as [[| |m r]|t]; cbn in Hin.
    + intuition discriminate.
    + intuition discriminate.
    + destruct (truthy r); cbn in Hin; intuition discriminate.
    + intuition discriminate.
Qed.

Lemma unselected_skips_check_witness :
  let p := filled (Some "a2") "Base Bravo" (Num 1) in
  let t := {| transfer_id := "t9"; transfer_quantity := 1;
              assetName := "Cargo truck" |} in
  selectedAsset p = None
  /\ isValid (values p) = true
  /\ asset (values p) = _id trucks
  /\ (available trucks < toNumber (quantity (values p)))%Q
  /\ head (added (handleSubmit (inr t)) p)
     = Some (ApiCreateTransfer (values p)).
Proof.
  intros p t. split; [reflexivity|]. split; [reflexivity|].
  split; [reflexivity|]. split; [reflexivity|].
  exact (proj1 (proj2
           (unselected_skips_check p (inr t) eq_refl eq_refl))).
Defined.

End TransferSpec.

(** * Sequences of session operations *)

Module AuthTraces.
Import Auth.

Lemma run_op_storage (w : World) (o : Op) :
  localStorage (run_op w o) = localStorage w
  \/ localStorage (run_op w o) = delete "token" (localStorage w)
  \/ exists t, localStorage (run_op w o) = <["token" := t]> (localStorage w).
Proof.
  destruct o as [|[e|r] u p|reply|d]; unfold run_op, exec.
  - destruct (isInitialized (authStore w)) eqn:Hinit.
    + rewrite (AuthSpec.mount_skip w Hinit). now left.
    + rewrite (AuthSpec.mount_init w Hinit), AuthSpec.initAuth_run.
      right; now left.
  - rewrite AuthSpec.login_reject_run. right; now left.
  - rewrite AuthSpec.login_resolve_run. right; right. now exists (token r).
  - rewrite AuthSpec.logout_run. right; now left.
  - rewrite AuthSpec.register_run. now left.
Qed.

(** What one operation appends to the trace. *)
Lemma run_op_trace (w : World) (o : Op) :
  exists evs,
    trace (run_op w o) = trace w ++ evs
    /\ List.filter is_network evs = op_calls o
    /\ (forall e, In e evs -> is_navigation e = true ->
          e = RouterReplace "/login" \/ e = RouterPush "/login").
Proof.
  destruct o as [|[e|r] u p|reply|d]; unfold run_op, exec.
  - destruct (isInitialized (authStore w)) eqn:Hinit.
    + rewrite (AuthSpec.mount_skip w Hinit). cbn.
      eexists. rewrite <- app_assoc. split; [reflexivity|].
      split; [reflexivity|]. cbn. intros e [<-|[<-|[]]]; discriminate.
    + rewrite (AuthSpec.mount_init w Hinit), AuthSpec.initAuth_run.
      cbn. destruct (off_public_routes (pathname w)).
      * eexists. rewrite <- app_assoc. split; [reflexivity|].
        split; [reflexivity|]. cbn. intros e [<-|[<-|[]]]; auto; discriminate.
      * eexists. split; [reflexivity|].
        split; [reflexivity|]. cbn. intros e [<-|[]]; discriminate.
  - rewrite AuthSpec.login_reject_run. cbn.
    eexists. rewrite <- !app_assoc. split; [reflexivity|].
    split; [reflexivity|]. cbn. intros e0 [<-|[<-|[<-|[]]]]; discriminate.
  - rewrite AuthSpec.login_resolve_run. cbn.
    eexists. rewrite <- !app_assoc. split; [reflexivity|].
    split; [reflexivity|]. cbn. intros e0 [<-|[<-|[]]]; discriminate.
  - rewrite AuthSpec.logout_run. cbn.
    eexists. rewrite <- !app_assoc. split; [reflexivity|].
    split; [destruct reply; reflexivity|].
    intros e Hin Hnav. apply in_app_or in Hin as [Hin|[<-|[]]]; [|now left].
    destruct reply; cbn in Hin; intuition subst; discriminate.
  - rewrite AuthSpec.register_run. cbn.
    eexists. rewrite <- !app_assoc. split; [reflexivity|].
    split; [reflexivity|]. cbn. intros e [<-|[<-|[]]]; auto; discriminate.
Qed.

Lemma run_ops_trace (ops : list Op) (w : World) :
  exists evs,
    trace (run_ops ops w) = trace w ++ evs
    /\ List.filter is_network evs = flat_map op_calls ops
    /\ (forall e, In e evs -> is_navigation e = true ->
          e = RouterReplace "/login" \/ e = RouterPush "/login").
Proof.
  revert w. induction ops as [|o ops IH]; intros w.
  - exists []. cbn. rewrite app_nil_r. repeat split. intros e [].
  - destruct (run_op_trace w o) as (ev1 & Ht1 & Hn1 & Hv1).
    destruct (IH (run_op w o)) as (ev2 & Ht2 & Hn2 & Hv2).
    exists (ev1 ++ ev2). cbn [run_ops fold_left flat_map].
    fold (run_ops ops (run_op w o)).
    rewrite Ht2, Ht1, <- app_assoc. split; [reflexivity|].
    split.
    + rewrite List.filter_app. now rewrite Hn1, Hn2.
    + intros e Hin. apply in_app_or in Hin as [Hin|Hin]; auto.
Qed.

Lemma run_op_rests_on (s : option LoginResponse) (w : World) (o : Op) :
  rests_on s w -> rests_on (op_session s o) (run_op w o).
Proof.
  intros (Hinit & Hu & Ha & Ht).
  destruct o as [|[e|r] u p|reply|d]; unfold run_op, exec, rests_on.
  - rewrite (AuthSpec.mount_skip w Hinit). cbn. auto.
  - rewrite AuthSpec.login_reject_run. cbn.
    repeat split; auto. apply lookup_delete_eq.
  - rewrite AuthSpec.login_resolve_run. cbn.
    repeat split; auto. apply lookup_insert_eq.
  - rewrite AuthSpec.logout_run. cbn.
    repeat split; auto. apply lookup_delete_eq.
  - rewrite AuthSpec.register_run. cbn. auto.
Qed.

Lemma run_ops_rests_on (ops : list Op) (s : option LoginResponse)
    (w : World) :
  rests_on s w -> rests_on (fold_left op_session ops s) (run_ops ops w).
Proof.
  revert s w. induction ops as [|o ops IH]; intros s w Hw; [exact Hw|].
  cbn. apply IH. now apply run_op_rests_on.
Qed.

Lemma load_rests_on_nothing (w : World) :
  isInitialized (authStore w) = false -> rests_on None (exec mount w).
Proof.
  intros Hinit. unfold exec, rests_on.
  rewrite (AuthSpec.mount_init w Hinit), AuthSpec.initAuth_run. cbn.
  repeat split. apply lookup_delete_eq.
Qed.

(** ** Properties *)

(** X1.  No sequence of operations changes a local storage key other than
    ["token"]. *)
Theorem other_keys_untouched (ops : list Op) (w : World) (k : string) :
  k <> "token" ->
  localStorage (run_ops ops w) !! k = localStorage w !! k.
Proof.
  intros Hk. revert w. induction ops as [|o ops IH]; intros w; [reflexivity|].
  cbn [run_ops fold_left]. fold (run_ops ops (run_op w o)). rewrite IH.
  destruct (run_op_storage w o) as [-> | [-> | [t ->]]].
  - reflexivity.
  - apply lookup_delete_ne. congruence.
  - apply lookup_insert_ne. congruence.
Qed.

Lemma other_keys_untouched_witness :
  let ops := [OpMount; OpLogin (inr {| token := "t1"; response_user := alice |})
                         "alice" "pw"; OpLogout None] in
  "theme" <> "token"
  /\ localStorage (run_ops ops (stale_load "/assets")) !! "theme"
     = localStorage (stale_load "/assets") !! "theme".
Proof.
  intros ops.
  assert (Hk : "theme" <> "token") by discriminate.
  split; [exact Hk|].
  exact (other_keys_untouched ops (stale_load "/assets") "theme" Hk).
Defined.

(** X2.  After a load, the store and the storage hold exactly what the
    last login, failed login or logout left: the user and token of the
    response if the last of them is a login that succeeded, nothing
    otherwise.  Mounting again and registering do not count. *)
Theorem session_is_last_login (w : World) (ops : list Op) :
  isInitialized (authStore w) = false ->
  user (authStore (run_ops ops (exec mount w)))
  = option_map response_user (session_after ops)
  /\ isAuthenticated (authStore (run_ops ops (exec mount w)))
     = match session_after ops with Some _ => true | None => false end
  /\ localStorage (run_ops ops (exec mount w)) !! "token"
     = option_map token (session_after ops).
Proof.
  intros Hinit.
  destruct (run_ops_rests_on ops None _ (load_rests_on_nothing w Hinit))
    as (_ & Hu & Ha & Ht).
  unfold session_after. auto.
Qed.

Lemma session_is_last_login_witness :
  let r := {| token := "t1"; response_user := alice |} in
  let ops := [OpLogin (inl unreachable) "alice" "pw";
              OpLogin (inr r) "alice" "pw"; OpMount; OpRegister []] in
  isInitialized (authStore (stale_load "/login")) = false
  /\ session_after ops = Some r
  /\ localStorage (run_ops ops (exec mount (stale_load "/login")))
       !! "token" = Some "t1".
Proof.
  intros r ops. split; [reflexivity|]. split; [reflexivity|].
  exact (proj2 (proj2
           (session_is_last_login (stale_load "/login") ops eq_refl))).
Defined.

(** X3.  After a load and any operations, the flag, the current user and
    the stored token agree: all three present or all three absent. *)
Theorem flag_user_token_agree (w : World) (ops : list Op) :
  isInitialized (authStore w) = false ->
  (isAuthenticated (authStore (run_ops ops (exec mount w))) = true
   <-> is_Some (user (authStore (run_ops ops (exec mount w)))))
  /\ (isAuthenticated (authStore (run_ops ops (exec mount w))) = true
      <-> is_Some (localStorage (run_ops ops (exec mount w))
                     !! "token")).
Proof.
  intros Hinit.
  destruct (run_ops_rests_on ops None _ (load_rests_on_nothing w Hinit))
    as (_ & Hu & Ha & Ht).
  rewrite Hu, Ha, Ht.
  destruct (fold_left op_session ops None) as [r|]; cbn.
  - split; split; intros _; eauto.
  - split; split; intros H; try discriminate; destruct H; discriminate.
Qed.

Lemma flag_user_token_agree_witness :
  let ops := [OpLogin (inr {| token := "t1"; response_user := alice |})
                "alice" "pw"] in
  isInitialized (authStore (stale_load "/login")) = false
  /\ (isAuthenticated
        (authStore (run_ops ops (exec mount (stale_load "/login"))))
      = true
      <-> is_Some (localStorage
                     (run_ops ops (exec mount (stale_load "/login")))
                     !! "token")).
Proof.
  intros ops. split; [reflexivity|].
  exact (proj2 (flag_user_token_agree (stale_load "/login") ops eq_refl)).
Defined.

(** X4.  Once the mount effect has run, the store stays initialized
    whatever follows. *)
Theorem initialized_for_good (ops : list Op) (w : World) :
  isInitialized (authStore (run_ops (OpMount :: ops) w)) = true.
Proof.
  cbn [run_ops fold_left]. fold (run_ops ops (run_op w OpMount)).
  assert (H0 : isInitialized (authStore (run_op w OpMount)) = true).
  { unfold run_op, exec. destruct (isInitialized (authStore w)) eqn:Hinit.
    - now rewrite (AuthSpec.mount_skip w Hinit).
    - now rewrite (AuthSpec.mount_init w Hinit), AuthSpec.initAuth_run. }
  revert H0. generalize (run_op w OpMount). clear w.
  induction ops as [|o ops IH]; intros w Hw; [exact Hw|].
  cbn [run_ops fold_left]. fold (run_ops ops (run_op w o)). apply IH.
  destruct o as [|[e|r] u p|reply|d]; unfold run_op, exec.
  - now rewrite (AuthSpec.mount_skip w Hw).
  - now rewrite AuthSpec.login_reject_run.
  - now rewrite AuthSpec.login_resolve_run.
  - now rewrite AuthSpec.logout_run.
  - now rewrite AuthSpec.register_run.
Qed.

(** X5.  The network calls of a sequence of operations are one login call
    per login, with the credentials given, and one logout call per logout,
    in order; nothing is retried, and mounting and registering call
    nothing. *)
Theorem one_call_per_operation (ops : list Op) (w : World) :
  List.filter is_network (added_by ops w) = flat_map op_calls ops.
Proof.
  destruct (run_ops_trace ops w) as (evs & Htr & Hnet & _).
  unfold added_by. rewrite Htr, drop_own_length. exact Hnet.
Qed.

(** X6.  The provider never navigates anywhere but to [/login]. *)
Theorem navigates_only_to_login (ops : list Op) (w : World) (e : Event) :
  In e (added_by ops w) ->
  is_navigation e = true ->
  e = RouterReplace "/login" \/ e = RouterPush "/login".
Proof.
  destruct (run_ops_trace ops w) as (evs & Htr & _ & Hnav).
  unfold added_by. rewrite Htr, drop_own_length. apply Hnav.
Qed.

Lemma navigates_only_to_login_witness :
  In (RouterReplace "/login") (added_by [OpLogout None] (stale_load "/assets"))
  /\ is_navigation (RouterReplace "/login") = true
  /\ (RouterReplace "/login" = RouterReplace "/login"
      \/ RouterReplace "/login" = RouterPush "/login").
Proof.
  assert (Hin : In (RouterReplace "/login")
                  (added_by [OpLogout None] (stale_load "/assets"))).
  { cbn. auto. }
  split; [exact Hin|]. split; [reflexivity|].
  exact (navigates_only_to_login [OpLogout None] (stale_load "/assets")
           (RouterReplace "/login") Hin eq_refl).
Defined.

(** X7.  [login] never navigates, whether the service accepts or refuses:
    the route is the one it started on and no router call is made. *)
Theorem login_never_navigates (reply : JsError + LoginResponse)
    (u p : string) (w : World) :
  pathname (exec (login reply u p) w) = pathname w
  /\ List.filter is_navigation (added (login reply u p) w) = [].
Proof.
  unfold added, exec. destruct reply as [e|r].
  - rewrite AuthSpec.login_reject_run. cbn. split; [reflexivity|].
    rewrite <- !app_assoc, drop_own_length. reflexivity.
  - rewrite AuthSpec.login_resolve_run. cbn. split; [reflexivity|].
    rewrite <- !app_assoc, drop_own_length. reflexivity.
Qed.

End AuthTraces.

(** * The transfer page as a whole *)

Module TransferPage.
Import Transfer.

(** ** Validation *)

Lemma string_required_nil (msg v : string) :
  string_required msg v = [] <-> v <> "".
Proof.
  unfold string_required. destruct (String.eqb_spec v "") as [->|Hne].
  - split; [discriminate | congruence].
  - tauto.
Qed.

Lemma notOneOf_nil (msg v r : string) : notOneOf [r] msg v = [] <-> v <> r.
Proof.
  unfold notOneOf. cbn. rewrite orb_false_r.
  destruct (String.eqb_spec v r) as [->|Hne].
  - split; [discriminate | congruence].
  - tauto.
Qed.

Lemma at_path_nil (path : string) (msgs : list string) :
  at_path path msgs = [] <-> msgs = [].
Proof. destruct msgs; cbn; split; (reflexivity || discriminate). Qed.

Lemma is_integer_spec (q : Q) :
  is_integer q = true <-> exists z : Z, (q == inject_Z z)%Q.
Proof.
  unfold is_integer, Qeq, inject_Z. cbn [Qnum Qden].
  rewrite Z.eqb_eq, Z.mod_divide by discriminate.
  unfold Z.divide. split; intros [z Hz]; exists z; lia.
Qed.

Lemma quantity_tests_nil (n : NumberField) :
  number_required "Quantity is required" n
  ++ positive "Quantity must be positive" n
  ++ integer "Quantity must be a whole number" n = []
  <-> exists q, n = Num q /\ (0 < q)%Q /\ exists z : Z, (q == inject_Z z)%Q.
Proof.
  destruct n as [q|]; cbn [number_required positive integer app].
  - destruct (Qgt_bool q 0) eqn:Hpos; destruct (is_integer q) eqn:Hint; cbn.
    + split; [intros _|reflexivity]. exists q.
      apply TransferSpec.Qgt_bool_true in Hpos.
      apply is_integer_spec in Hint. auto.
    + split; [discriminate|]. intros (q' & [= <-] & _ & Hz).
      apply is_integer_spec in Hz. congruence.
    + split; [discriminate|]. intros (q' & [= <-] & Hlt & _).
      apply TransferSpec.Qgt_bool_true in Hlt. congruence.
    + split; [discriminate|]. intros (q' & [= <-] & Hlt & _).
      apply TransferSpec.Qgt_bool_true in Hlt. congruence.
  - split; [discriminate|]. intros (q & Hq & _). discriminate.
Qed.

Lemma schema_passes (vs : FormValues) :
  isValid vs = true <->
  asset vs <> "" /\ fromBase vs <> "" /\ toBase vs <> ""
  /\ toBase vs <> fromBase vs
  /\ exists q, quantity vs = Num q /\ (0 < q)%Q
              /\ exists z : Z, (q == inject_Z z)%Q.
Proof.
  assert (Hv : isValid vs = true <-> TransferSchema vs = []).
  { unfold isValid. destruct (TransferSchema vs); split; congruence. }
  rewrite Hv. unfold TransferSchema.
  rewrite !app_nil, !at_path_nil, !app_nil.
  rewrite !string_required_nil, notOneOf_nil.
  rewrite <- (quantity_tests_nil (quantity vs)), !app_nil.
  tauto.
Qed.

(** ** What the effects and the handler compute *)

(** Unfolds the computations of the page on a page given field by field. *)
Ltac run_page :=
  cbv beta iota zeta delta
    [fetchEffect fetchAssets selectionEffect onSubmit createAndShow
     handleSubmit permissionEffect
     try_finally try_catch bind ret throw get modify exec outcome
     emit setIsLoading setIsSubmitting setAvailableAssets setSelectedAsset
     with_values setFieldValue_asset setFieldValue_fromBase
     handleChange_toBase handleChange_quantity
     toast_error toast_success console_error router_push addNotification
     assetService_getAssets transferService_createTransfer error_text
     user assetId isLoading isSubmitting availableAssets selectedAsset
     values trace asset fromBase toBase quantity notes fst snd].

Lemma fetch_resolve_run (p : Page) (u : User) (assets : list Asset) :
  user p = Some u ->
  fetchEffect (inr assets) p =
  (Normal tt,
   match truthy (assetId p) with
   | Some i =>
       match List.find (fun a => String.eqb (_id a) i)
               (filterAssets (user p) assets) with
       | Some a =>
           {| user := user p; assetId := assetId p; isLoading := false;
              isSubmitting := isSubmitting p;
              availableAssets := filterAssets (user p) assets;
              selectedAsset := Some a;
              values :=
                {| asset := _id a; fromBase := base a;
                   toBase := toBase (values p);
                   quantity := quantity (values p);
                   notes := notes (values p) |};
              trace := trace p ++ [ApiGetAssets 100] |}
       | None =>
           {| user := user p; assetId := assetId p; isLoading := false;
              isSubmitting := isSubmitting p;
              availableAssets := filterAssets (user p) assets;
              selectedAsset := selectedAsset p; values := values p;
              trace := trace p ++ [ApiGetAssets 100] |}
       end
   | None =>
       {| user := user p; assetId := assetId p; isLoading := false;
          isSubmitting := isSubmitting p;
          availableAssets := filterAssets (user p) assets;
          selectedAsset := selectedAsset p; values := values p;
          trace := trace p ++ [ApiGetAssets 100] |}
   end).
Proof.
  destruct p as [u0 i ld sb av sel [va vf vt vq vn] tr].
  cbn [user]. intros ->. run_page.
  destruct (truthy i) as [j|]; [|reflexivity].
  destruct (List.find _ _) as [a|]; reflexivity.
Qed.

Lemma fetch_reject_run (p : Page) (u : User) (e : JsError) :
  user p = Some u ->
  fetchEffect (inl e) p =
  (Normal tt,
   {| user := user p; assetId := assetId p; isLoading := false;
      isSubmitting := isSubmitting p;
      availableAssets := availableAssets p;
      selectedAsset := selectedAsset p; values := values p;
      trace := trace p ++ [ApiGetAssets 100;
                           ConsoleError "Error fetching assets:" e;
                           ToastError (Lit "Failed to load assets")] |}).
Proof.
  destruct p as [u0 i ld sb av sel [va vf vt vq vn] tr].
  cbn [user]. intros ->. run_page.
  rewrite <- !app_assoc. reflexivity.
Qed.

Lemma fetch_anonymous_run (p : Page) (reply : JsError + list Asset) :
  user p = None -> fetchEffect reply p = (Normal tt, p).
Proof.
  intros Hu. unfold fetchEffect, bind, get. now rewrite Hu.
Qed.

Lemma filterAssets_In (u : option User) (assets : list Asset) (a : Asset) :
  In a (filterAssets u assets) <->
  In a assets /\ (0 < available a)%Q
  /\ (forall b, officer_base u = Some b -> base a = b).
Proof.
  unfold filterAssets. rewrite filter_In, TransferSpec.Qgt_bool_true.
  destruct (officer_base u) as [b|].
  - rewrite filter_In, String.eqb_eq. split.
    + intros [[Hin Hb] Hpos]. repeat split; auto. now intros b' [= <-].
    + intros (Hin & Hpos & Hb). auto.
  - split.
    + intros [Hin Hpos]. repeat split; auto. discriminate.
    + intros (Hin & Hpos & _). auto.
Qed.

Lemma selection_run (p : Page) :
  selectionEffect p =
  (Normal tt,
   match List.find (fun a => String.eqb (_id a) (asset (values p)))
           (availableAssets p) with
   | Some a =>
       {| user := user p; assetId := assetId p; isLoading := isLoading p;
          isSubmitting := isSubmitting p;
          availableAssets := availableAssets p;
          selectedAsset := Some a;
          values :=
            {| asset := asset (values p); fromBase := base a;
               toBase := toBase (values p);
               quantity := quantity (values p);
               notes := notes (values p) |};
          trace := trace p |}
   | None =>
       {| user := user p; assetId := assetId p; isLoading := isLoading p;
          isSubmitting := isSubmitting p;
          availableAssets := availableAssets p;
          selectedAsset := None; values := values p;
          trace := trace p |}
   end).
Proof.
  destruct p as [u0 i ld sb av sel [va vf vt vq vn] tr]. run_page.
  destruct (List.find _ _) as [a|]; reflexivity.
Qed.

Lemma onSubmit_run (p : Page) (vs : FormValues)
    (reply : JsError + Transfer) :
  onSubmit reply vs p =
  (match rejection p vs, reply with
   | None, inl Nullish => Throw (TypeError "response")
   | _, _ => Normal tt
   end,
   {| user := user p; assetId := assetId p; isLoading := isLoading p;
      isSubmitting := false; availableAssets := availableAssets p;
      selectedAsset := selectedAsset p; values := values p;
      trace := trace p ++ submit_events reply vs p |}).
Proof.
  destruct p as [u0 i ld sb av sel vs0 tr].
  unfold submit_events, rejection, create_events. run_page.
  destruct sel as [a|].
  - destruct (Qgt_bool _ _); [reflexivity|].
    destruct reply as [[| |m r]|t]; try destruct (truthy r);
      run_page; rewrite <- ?app_assoc; reflexivity.
  - destruct reply as [[| |m r]|t]; try destruct (truthy r);
      run_page; rewrite <- ?app_assoc; reflexivity.
Qed.

Lemma onSubmit_added (p : Page) (vs : FormValues)
    (reply : JsError + Transfer) :
  added (onSubmit reply vs) p = submit_events reply vs p.
Proof.
  unfold added, exec. rewrite onSubmit_run. cbn. apply drop_own_length.
Qed.

Lemma handleSubmit_added (p : Page) (reply : JsError + Transfer) :
  added (handleSubmit reply) p =
  if isValid (values p) then submit_events reply (values p) p else [].
Proof.
  destruct (isValid (values p)) eqn:Hv.
  - unfold added, exec. rewrite (TransferSpec.handleSubmit_valid p reply Hv).
    apply onSubmit_added.
  - apply TransferSpec.added_nothing. unfold exec.
    now rewrite (TransferSpec.handleSubmit_invalid p reply Hv).
Qed.

Lemma rejection_none (p : Page) (vs : FormValues) :
  rejection p vs = None <->
  forall a, selectedAsset p = Some a ->
            (toNumber (quantity vs) <= available a)%Q.
Proof.
  unfold rejection. destruct (selectedAsset p) as [a|].
  - destruct (Qgt_bool (toNumber (quantity vs)) (available a)) eqn:Hgt.
    + apply TransferSpec.Qgt_bool_true in Hgt. split; [discriminate|].
      intros Hle. exfalso. exact (Qlt_not_le _ _ Hgt (Hle a eq_refl)).
    + split; [|reflexivity]. intros _ a' [= <-].
      apply Qnot_lt_le. intros Hlt.
      apply TransferSpec.Qgt_bool_true in Hlt. congruence.
  - split; [|reflexivity]. intros _ a' [=].
Qed.

Lemma create_events_call (reply : JsError + Transfer) (vs vs' : FormValues) :
  In (ApiCreateTransfer vs') (create_events reply vs) <-> vs' = vs.
Proof.
  destruct reply as [e|t]; cbn; split.
  - intros [[= ->]|[[=]|Hin]]; [reflexivity|]. exfalso.
    destruct e as [| |m r]; [|destruct Hin as [[=]|[]]|];
      [destruct Hin|].
    destruct (truthy r); destruct Hin as [[=]|[]].
  - intros ->. now left.
  - intros [[= ->]|[[=]|[[=]|[[=]|[]]]]]. reflexivity.
  - intros ->. now left.
Qed.

Lemma submit_events_call (reply : JsError + Transfer) (vs vs' : FormValues)
    (p : Page) :
  In (ApiCreateTransfer vs') (submit_events reply vs p) <->
  vs' = vs /\ rejection p vs = None.
Proof.
  unfold submit_events. destruct (rejection p vs) as [av|].
  - cbn. split; [intros [[=]|[]] | intros [_ [=]]].
  - rewrite create_events_call. split; [auto | tauto].
Qed.

Lemma fetch_resolve_assets (p : Page) (u : User) (assets : list Asset) :
  user p = Some u ->
  availableAssets (exec (fetchEffect (inr assets)) p)
  = filterAssets (user p) assets.
Proof.
  intros Hu. unfold exec. rewrite (fetch_resolve_run p u assets Hu). cbn.
  destruct (truthy (assetId p)) as [i|]; [|reflexivity].
  destruct (List.find _ _) as [a|]; reflexivity.
Qed.

Lemma at_path_fst (path x : string) (msgs : list string) :
  In x (map fst (at_path path msgs)) -> x = path.
Proof.
  unfold at_path. rewrite map_map. cbn. rewrite in_map_iff.
  now intros (msg & <- & _).
Qed.

(** ** Properties *)

(** X8.  The schema accepts exactly the values with an asset, a source
    base, a destination base that is not the source base, and a quantity
    that is a number, positive and whole.  The notes never matter. *)
Theorem transfer_valid_iff (vs : FormValues) :
  isValid vs = true <->
  asset vs <> "" /\ fromBase vs <> "" /\ toBase vs <> ""
  /\ toBase vs <> fromBase vs
  /\ exists q, quantity vs = Num q /\ (0 < q)%Q
              /\ exists z : Z, (q == inject_Z z)%Q.
Proof.
  assert (Hv : isValid vs = true <-> TransferSchema vs = []).
  { unfold isValid. destruct (TransferSchema vs); split; congruence. }
  rewrite Hv. unfold TransferSchema.
  rewrite !app_nil, !at_path_nil, !app_nil.
  rewrite !string_required_nil, notOneOf_nil.
  rewrite <- (quantity_tests_nil (quantity vs)), !app_nil.
  tauto.
Qed.

(** X9.  After a fetch that succeeds, the assets on offer are exactly the
    assets of the response with a positive available quantity and, for a
    logistics officer with an assigned base, at that base. *)
Theorem fetched_assets_filtered (p : Page) (u : User)
    (assets : list Asset) (a : Asset) :
  user p = Some u ->
  In a (availableAssets (exec (fetchEffect (inr assets)) p)) <->
  In a assets /\ (0 < available a)%Q
  /\ (forall b, officer_base (Some u) = Some b -> base a = b).
Proof.
  intros Hu. rewrite (fetch_resolve_assets p u assets Hu), Hu.
  apply filterAssets_In.
Qed.

Lemma fetched_assets_filtered_witness :
  user (mounted None) = Some officer
  /\ (In trucks
        (availableAssets
           (exec (fetchEffect (inr [crates; trucks])) (mounted None)))
      <-> In trucks [crates; trucks] /\ (0 < available trucks)%Q
          /\ (forall b, officer_base (Some officer) = Some b ->
                        base trucks = b)).
Proof.
  split; [reflexivity|].
  exact (fetched_assets_filtered (mounted None) officer [crates; trucks]
           trucks eq_refl).
Defined.

(** X10.  A fetch that fails is swallowed: the page keeps its assets, its
    selection and its form values, the loading flag is cleared, and the
    user gets one toast. *)
Theorem fetch_failure_keeps_page (p : Page) (u : User) (e : JsError) :
  user p = Some u ->
  outcome (fetchEffect (inl e)) p = Normal tt
  /\ availableAssets (exec (fetchEffect (inl e)) p) = availableAssets p
  /\ selectedAsset (exec (fetchEffect (inl e)) p) = selectedAsset p
  /\ values (exec (fetchEffect (inl e)) p) = values p
  /\ isLoading (exec (fetchEffect (inl e)) p) = false
  /\ added (fetchEffect (inl e)) p
     = [ApiGetAssets 100; ConsoleError "Error fetching assets:" e;
        ToastError (Lit "Failed to load assets")].
Proof.
  intros Hu. unfold added, outcome, exec.
  rewrite (fetch_reject_run p u e Hu). cbn.
  repeat split. apply drop_own_length.
Qed.

Lemma fetch_failure_keeps_page_witness :
  user (mounted None) = Some officer
  /\ isLoading (exec (fetchEffect (inl Auth.unreachable)) (mounted None))
     = false.
Proof.
  split; [reflexivity|].
  exact (proj1 (proj2 (proj2 (proj2 (proj2
           (fetch_failure_keeps_page (mounted None) officer
              Auth.unreachable eq_refl)))))).
Defined.

(** X11.  The fetch effect never throws.  It asks for the assets once,
    with limit 100, when a user is known and then always clears the
    loading flag; with no user it does nothing at all. *)
Theorem fetch_once_if_user (p : Page) (reply : JsError + list Asset) :
  outcome (fetchEffect reply) p = Normal tt
  /\ List.filter is_network (added (fetchEffect reply) p)
     = match user p with Some _ => [ApiGetAssets 100] | None => [] end
  /\ match user p with
     | Some _ => isLoading (exec (fetchEffect reply) p) = false
     | None => exec (fetchEffect reply) p = p
     end.
Proof.
  destruct (user p) as [u|] eqn:Hu.
  - destruct reply as [e|assets]; unfold added, outcome, exec.
    + rewrite (fetch_reject_run p u e Hu). cbn.
      rewrite drop_own_length. repeat split.
    + rewrite (fetch_resolve_run p u assets Hu). cbn.
      destruct (truthy (assetId p)) as [i|];
        [destruct (List.find _ _) as [a|]|];
        cbn; rewrite drop_own_length; repeat split.
  - unfold outcome. rewrite (TransferSpec.added_nothing _ p);
      unfold exec; rewrite (fetch_anonymous_run p reply Hu); repeat split.
Qed.

(** X12.  When the query names an asset that is on offer, the fetch
    selects it and sets the asset and the source base of the form from
    it; the other fields keep their values. *)
Theorem query_asset_preselected (p : Page) (u : User)
    (assets : list Asset) (i : string) (a : Asset) :
  user p = Some u ->
  truthy (assetId p) = Some i ->
  List.find (fun a => String.eqb (_id a) i) (filterAssets (user p) assets)
  = Some a ->
  selectedAsset (exec (fetchEffect (inr assets)) p) = Some a
  /\ asset (values (exec (fetchEffect (inr assets)) p)) = i
  /\ fromBase (values (exec (fetchEffect (inr assets)) p)) = base a
  /\ toBase (values (exec (fetchEffect (inr assets)) p)) = toBase (values p)
  /\ quantity (values (exec (fetchEffect (inr assets)) p))
     = quantity (values p)
  /\ notes (values (exec (fetchEffect (inr assets)) p)) = notes (values p).
Proof.
  intros Hu Hid Hfind. unfold exec.
  rewrite (fetch_resolve_run p u assets Hu), Hid, Hfind. cbn.
  repeat split. apply find_some in Hfind as [_ Heq].
  now apply String.eqb_eq in Heq.
Qed.

Lemma query_asset_preselected_witness :
  user (mounted (Some "a1")) = Some officer
  /\ truthy (assetId (mounted (Some "a1"))) = Some "a1"
  /\ List.find (fun a => String.eqb (_id a) "a1")
       (filterAssets (user (mounted (Some "a1"))) [crates; trucks])
     = Some crates
  /\ selectedAsset
       (exec (fetchEffect (inr [crates; trucks])) (mounted (Some "a1")))
     = Some crates.
Proof.
  split; [reflexivity|]. split; [reflexivity|]. split; [reflexivity|].
  exact (proj1 (query_asset_preselected (mounted (Some "a1")) officer
                  [crates; trucks] "a1" crates eq_refl eq_refl eq_refl)).
Defined.

(** X13.  After the selection effect the selection agrees with the form:
    a selected asset is on offer, has the identifier the form names, and
    its base is the source base of the form; no selection means that no
    asset on offer has that identifier, and the form is untouched. *)
Theorem selection_agrees_with_form (p : Page) :
  match selectedAsset (exec selectionEffect p) with
  | Some a =>
      In a (availableAssets p)
      /\ _id a = asset (values (exec selectionEffect p))
      /\ asset (values (exec selectionEffect p)) = asset (values p)
      /\ fromBase (values (exec selectionEffect p)) = base a
  | None =>
      values (exec selectionEffect p) = values p
      /\ forall a, In a (availableAssets p) -> _id a <> asset (values p)
  end.
Proof.
  unfold exec. rewrite selection_run. cbn.
  destruct (List.find _ _) as [a|] eqn:Hfind; cbn.
  - apply find_some in Hfind as [Hin Heq].
    apply String.eqb_eq in Heq. auto.
  - split; [reflexivity|]. intros a Hin Heq.
    apply (find_none _ _ Hfind) in Hin. cbn in Hin.
    apply String.eqb_neq in Hin. contradiction.
Qed.

(** X14.  Running the selection effect again changes nothing. *)
Theorem selection_idempotent (p : Page) :
  exec selectionEffect (exec selectionEffect p) = exec selectionEffect p.
Proof.
  unfold exec. rewrite (selection_run p).
  destruct (List.find _ _) as [a|] eqn:Hfind; cbn [snd];
    rewrite selection_run; cbn; rewrite Hfind; reflexivity.
Qed.

(** X15.  After a fetch that succeeds and the selection effect, a
    selected asset comes from the response, has a positive available
    quantity, and that quantity is the maximum of the quantity input. *)
Theorem selected_asset_has_stock (p : Page) (u : User)
    (assets : list Asset) (a : Asset) :
  user p = Some u ->
  selectedAsset (exec selectionEffect (exec (fetchEffect (inr assets)) p))
  = Some a ->
  In a assets
  /\ (0 < available a)%Q
  /\ quantity_max
       (exec selectionEffect (exec (fetchEffect (inr assets)) p))
     = available a.
Proof.
  intros Hu Hsel.
  assert (Hstock : In a assets /\ (0 < available a)%Q).
  { pose proof (selection_run (exec (fetchEffect (inr assets)) p)) as Hrun.
    unfold exec at 1 in Hsel. rewrite Hrun in Hsel.
    cbn [snd] in Hsel.
    destruct (List.find _ _) as [a'|] eqn:Hfind; cbn in Hsel; [|discriminate].
    injection Hsel as ->. apply find_some in Hfind as [Hin _].
    rewrite (fetch_resolve_assets p u assets Hu) in Hin.
    apply filterAssets_In in Hin. tauto. }
  destruct Hstock as [Hin Hpos]. repeat split; auto.
  unfold quantity_max. rewrite Hsel.
  destruct (Qeq_bool (available a) 0) eqn:Hz; [|reflexivity].
  apply Qeq_bool_iff in Hz. rewrite Hz in Hpos.
  exfalso. exact (Qlt_irrefl 0 Hpos).
Qed.

Lemma selected_asset_has_stock_witness :
  user (mounted (Some "a1")) = Some officer
  /\ selectedAsset
       (exec selectionEffect
          (exec (fetchEffect (inr [crates; trucks])) (mounted (Some "a1"))))
     = Some crates
  /\ quantity_max
       (exec selectionEffect
          (exec (fetchEffect (inr [crates; trucks])) (mounted (Some "a1"))))
     = available crates.
Proof.
  split; [reflexivity|]. split; [reflexivity|].
  exact (proj2 (proj2
           (selected_asset_has_stock (mounted (Some "a1")) officer
              [crates; trucks] crates eq_refl eq_refl))).
Defined.

(** X16.  Whatever the service answers, [onSubmit] ends with the
    submitting flag down, makes at most one network call, and leaves the
    form values, the selection and the assets as they were.  It completes
    normally in every case but one: when the call is made and fails with
    [null] or [undefined], the handler's own read of [error.response]
    throws and [onSubmit] fails with that [TypeError]. *)
Theorem onSubmit_settles (p : Page) (vs : FormValues)
    (reply : JsError + Transfer) :
  outcome (onSubmit reply vs) p
  = match rejection p vs, reply with
    | None, inl Nullish => Throw (TypeError "response")
    | _, _ => Normal tt
    end
  /\ isSubmitting (exec (onSubmit reply vs) p) = false
  /\ (length (List.filter is_network (added (onSubmit reply vs) p)) <= 1)%nat
  /\ values (exec (onSubmit reply vs) p) = values p
  /\ selectedAsset (exec (onSubmit reply vs) p) = selectedAsset p
  /\ availableAssets (exec (onSubmit reply vs) p) = availableAssets p.
Proof.
  rewrite onSubmit_added. unfold outcome, exec. rewrite onSubmit_run. cbn.
  repeat split. unfold submit_events.
  destruct (rejection p vs); [cbn; lia|].
  destruct reply as [[| |m r]|t]; cbn; try destruct (truthy r); cbn; lia.
Qed.

(** X17.  With an asset selected, [onSubmit] calls the transfer-creation
    service exactly when the quantity is at most what the asset has
    available. *)
Theorem create_iff_within_availability (p : Page) (a : Asset)
    (vs : FormValues) (reply : JsError + Transfer) :
  selectedAsset p = Some a ->
  In (ApiCreateTransfer vs) (added (onSubmit reply vs) p) <->
  (toNumber (quantity vs) <= available a)%Q.
Proof.
  intros Hsel. rewrite onSubmit_added, submit_events_call, rejection_none.
  split.
  - intros [_ Hle]. now apply Hle.
  - intros Hle. split; [reflexivity|]. intros a' Ha'.
    rewrite Hsel in Ha'. now injection Ha' as <-.
Qed.

Lemma create_iff_within_availability_witness :
  let p := filled (Some "a1") "Base Bravo" (Num 3) in
  selectedAsset p = Some crates
  /\ (In (ApiCreateTransfer (values p))
        (added (onSubmit (inl Auth.unreachable) (values p)) p)
      <-> (toNumber (quantity (values p)) <= available crates)%Q).
Proof.
  intros p. split; [reflexivity|].
  exact (create_iff_within_availability p crates (values p)
           (inl Auth.unreachable) eq_refl).
Defined.

(** X18.  Whatever the form's submit sends to the transfer-creation
    service are the values of the form, they pass the schema (so the two
    bases differ and the quantity is positive), and the quantity is within
    the availability of the selected asset, if one is selected. *)
Theorem sent_transfers_are_valid (p : Page) (vs : FormValues)
    (reply : JsError + Transfer) :
  In (ApiCreateTransfer vs) (added (handleSubmit reply) p) ->
  vs = values p
  /\ isValid vs = true
  /\ toBase vs <> fromBase vs
  /\ (0 < toNumber (quantity vs))%Q
  /\ (forall a, selectedAsset p = Some a ->
        (toNumber (quantity vs) <= available a)%Q).
Proof.
  rewrite handleSubmit_added.
  destruct (isValid (values p)) eqn:Hv; [|intros []].
  rewrite submit_events_call. intros [-> Hrej].
  pose proof (proj1 (schema_passes (values p)) Hv)
    as (_ & _ & _ & Hne & q & Hq & Hpos & _).
  repeat split; auto.
  - rewrite Hq. exact Hpos.
  - now apply rejection_none.
Qed.

Lemma sent_transfers_are_valid_witness :
  let p := filled (Some "a1") "Base Bravo" (Num 3) in
  In (ApiCreateTransfer (values p))
    (added (handleSubmit (inl Auth.unreachable)) p)
  /\ toBase (values p) <> fromBase (values p).
Proof.
  intros p.
  assert (Hin : In (ApiCreateTransfer (values p))
                  (added (handleSubmit (inl Auth.unreachable)) p)).
  { cbn. left. reflexivity. }
  split; [exact Hin|].
  exact (proj1 (proj2 (proj2
           (sent_transfers_are_valid p (values p) (inl Auth.unreachable)
              Hin)))).
Defined.

(** X19.  [onSubmit] navigates exactly when the service created the
    transfer, and then to the page of the transfer it returned. *)
Theorem navigates_iff_created (p : Page) (vs : FormValues)
    (reply : JsError + Transfer) (url : string) :
  In (RouterPush url) (added (onSubmit reply vs) p) <->
  rejection p vs = None
  /\ exists t, reply = inr t
                /\ url = ("/transfers/" ++ transfer_id t)%string.
Proof.
  rewrite onSubmit_added. unfold submit_events.
  destruct (rejection p vs) as [av|]; cbn.
  - split; [intros [[=]|[]] | intros [[=] _]].
  - destruct reply as [e|t]; cbn; split.
    + intros [[=]|[[=]|Hin]]. exfalso.
      destruct e as [| |m r]; [|destruct Hin as [[=]|[]]|];
        [destruct Hin|].
      destruct (truthy r); destruct Hin as [[=]|[]].
    + intros (_ & t & [=] & _).
    + intros [[=]|[[=]|[[=]|[[= <-]|[]]]]]. eauto.
    + intros (_ & t' & [= <-] & ->). auto.
Qed.

(** X20.  When the transfer-creation call fails with anything but [null]
    or [undefined], the user gets exactly one error toast and nothing else
    is shown; its text is never empty: the message of the service when
    there is a non-empty one, the fallback text otherwise.  When the call
    fails with [null] or [undefined], the failure is logged, no toast is
    shown, and [onSubmit] fails with the [TypeError] of reading
    [error.response]. *)
Theorem refused_transfer_reported (p : Page) (vs : FormValues)
    (e : JsError) :
  rejection p vs = None ->
  match e with
  | Nullish =>
      added (onSubmit (inl e) vs) p
      = [ApiCreateTransfer vs; ConsoleError "Error creating transfer:" e]
      /\ outcome (onSubmit (inl e) vs) p = Throw (TypeError "response")
  | TypeError _ =>
      added (onSubmit (inl e) vs) p
      = [ApiCreateTransfer vs; ConsoleError "Error creating transfer:" e;
         ToastError (Lit "Failed to create transfer")]
      /\ outcome (onSubmit (inl e) vs) p = Normal tt
  | ErrorValue _ response_data_error =>
      outcome (onSubmit (inl e) vs) p = Normal tt
      /\ exists msg,
           added (onSubmit (inl e) vs) p
           = [ApiCreateTransfer vs;
              ConsoleError "Error creating transfer:" e;
              ToastError (Lit msg)]
           /\ msg <> ""
           /\ (response_data_error = Some msg
               \/ msg = "Failed to create transfer"
                  /\ (response_data_error = None
                      \/ response_data_error = Some ""))
  end.
Proof.
  intros Hrej. rewrite !onSubmit_added. unfold outcome, submit_events.
  rewrite onSubmit_run, Hrej. cbn.
  destruct e as [| |m [s0|]]; cbn; try (split; reflexivity).
  - split; [reflexivity|].
    destruct (String.eqb_spec s0 "") as [->|Hne].
    + eexists. split; [reflexivity|]. split; [discriminate|]. auto.
    + exists s0. auto.
  - split; [reflexivity|].
    eexists. split; [reflexivity|]. split; [discriminate|]. auto.
Qed.

Lemma refused_transfer_reported_witness :
  rejection (filled (Some "a1") "Base Bravo" (Num 3))
    (values (filled (Some "a1") "Base Bravo" (Num 3))) = None
  /\ exists msg,
       added
         (onSubmit (inl (ErrorValue "Request failed"
                           (Some "Insufficient stock")))
            (values (filled (Some "a1") "Base Bravo" (Num 3))))
         (filled (Some "a1") "Base Bravo" (Num 3))
       = [ApiCreateTransfer (values (filled (Some "a1") "Base Bravo" (Num 3)));
          ConsoleError "Error creating transfer:"
            (ErrorValue "Request failed" (Some "Insufficient stock"));
          ToastError (Lit msg)]
       /\ msg <> "".
Proof.
  split; [reflexivity|].
  destruct (refused_transfer_reported
              (filled (Some "a1") "Base Bravo" (Num 3))
              (values (filled (Some "a1") "Base Bravo" (Num 3)))
              (ErrorValue "Request failed" (Some "Insufficient stock"))
              eq_refl)
    as (_ & msg & Hadd & Hne & _).
  exists msg. split; assumption.
Defined.

(** X21.  The permission effect and the render guard agree: the page
    renders nothing exactly when the effect sends the user back to
    [/transfers], which is exactly when a user is known whose role is
    neither [Admin] nor [LogisticsOfficer].  The effect calls no service. *)
Theorem permission_gate (p : Page) :
  (In (RouterPush "/transfers") (added permissionEffect p)
   <-> render p = ViewNothing)
  /\ (render p = ViewNothing
      <-> exists u, user p = Some u /\ role u <> "Admin"
                    /\ role u <> "LogisticsOfficer")
  /\ List.filter is_network (added permissionEffect p) = [].
Proof.
  assert (Hadd : added permissionEffect p =
                 if forbidden (user p)
                 then [ToastError
                         (Lit "You do not have permission to create transfers");
                       RouterPush "/transfers"]
                 else []).
  { destruct p as [u0 i ld sb av sel vs0 tr]. unfold added. run_page.
    destruct (forbidden u0); cbn [fst snd].
    - rewrite <- app_assoc. apply drop_own_length.
    - rewrite <- (app_nil_r tr) at 2. apply drop_own_length. }
  assert (Hview : render p = ViewNothing <-> forbidden (user p) = true).
  { unfold render. destruct (forbidden (user p)); [tauto|].
    destruct (isLoading p && _); [split; discriminate|].
    destruct (_ =? _)%nat; split; discriminate. }
  rewrite Hadd, Hview. split; [|split].
  - destruct (forbidden (user p)); cbn; [tauto|].
    split; [intros []|discriminate].
  - unfold forbidden. destruct (user p) as [u|].
    + rewrite andb_true_iff, !negb_true_iff, !String.eqb_neq. split.
      * intros [H1 H2]. eauto.
      * intros (u' & [= <-] & H1 & H2). auto.
    + split; [discriminate|]. intros (u & [=] & _).
  - destruct (forbidden (user p)); reflexivity.
Qed.

(** X22.  Once a fetch has finished for a known user, in success or in
    failure, the loading screen is gone; a permitted user then sees the
    form exactly when some asset is on offer. *)
Theorem loading_screen_goes_away (p : Page) (u : User)
    (reply : JsError + list Asset) :
  user p = Some u ->
  render (exec (fetchEffect reply) p) <> ViewLoading
  /\ (forbidden (Some u) = false ->
      (render (exec (fetchEffect reply) p) = ViewForm
       <-> availableAssets (exec (fetchEffect reply) p) <> [])).
Proof.
  intros Hu.
  assert (Hload : isLoading (exec (fetchEffect reply) p) = false).
  { unfold exec. destruct reply as [e|assets].
    - now rewrite (fetch_reject_run p u e Hu).
    - rewrite (fetch_resolve_run p u assets Hu). cbn.
      destruct (truthy (assetId p)) as [i|];
        [destruct (List.find _ _) as [a|]|]; reflexivity. }
  assert (Huser : user (exec (fetchEffect reply) p) = Some u).
  { unfold exec. destruct reply as [e|assets].
    - now rewrite (fetch_reject_run p u e Hu).
    - rewrite (fetch_resolve_run p u assets Hu). cbn.
      destruct (truthy (assetId p)) as [i|];
        [destruct (List.find _ _) as [a|]|]; exact Hu. }
  unfold render. rewrite Hload, Huser. cbn [andb].
  split.
  - destruct (forbidden (Some u)); [discriminate|].
    destruct (_ =? _)%nat; discriminate.
  - intros ->.
    destruct (availableAssets (exec (fetchEffect reply) p)) as [|a l]; cbn.
    + split; [discriminate|congruence].
    + split; [discriminate|reflexivity].
Qed.

Lemma loading_screen_goes_away_witness :
  user (mounted None) = Some officer
  /\ render (exec (fetchEffect (inl Auth.unreachable)) (mounted None))
     <> ViewLoading.
Proof.
  split; [reflexivity|].
  exact (proj1 (loading_screen_goes_away (mounted None) officer
                  (inl Auth.unreachable) eq_refl)).
Defined.

(** X23.  Every destination the form offers is one of the three bases, is
    not the source base, and, once chosen, leaves no error on the
    destination field. *)
Theorem offered_destinations_pass (p : Page) (o : string) :
  In o (toBase_options p) ->
  In o bases
  /\ o <> fromBase (values p)
  /\ ~ In "toBase"
        (map fst (TransferSchema (values (exec (handleChange_toBase o) p)))).
Proof.
  unfold toBase_options. rewrite filter_In, negb_true_iff, String.eqb_neq.
  intros [Hin Hne]. split; [exact Hin|]. split; [exact Hne|].
  assert (Ho : o <> "").
  { cbn in Hin. intuition subst; discriminate. }
  destruct p as [u0 i ld sb av sel [va vf vt vq vn] tr].
  cbn [values fromBase] in Hne. run_page.
  unfold TransferSchema. cbn [asset fromBase toBase quantity notes].
  rewrite (proj2 (string_required_nil "To Base is required" o) Ho).
  rewrite (proj2 (notOneOf_nil "To Base must be different from From Base"
                    o vf) Hne).
  rewrite !map_app. intros Hin'.
  repeat (apply in_app_or in Hin' as [Hin'|Hin']);
    try (apply at_path_fst in Hin'; discriminate); destruct Hin'.
Qed.

Lemma offered_destinations_pass_witness :
  let p := filled (Some "a1") "" (Num 1) in
  In "Base Charlie" (toBase_options p)
  /\ "Base Charlie" <> fromBase (values p).
Proof.
  intros p.
  assert (Hin : In "Base Charlie" (toBase_options p)).
  { cbn. right. left. reflexivity. }
  split; [exact Hin|].
  exact (proj1 (proj2 (offered_destinations_pass p "Base Charlie" Hin))).
Defined.

(** X24.  A logistics officer with an assigned base only ever transfers
    out of that base: if the form starts on it, then after a fetch that
    succeeds and the selection effect the source base is still that base,
    whatever the service returned and whatever asset the form names, and
    the source base select is disabled. *)
Theorem officer_source_base_fixed (p : Page) (u : User) (b : string)
    (assets : list Asset) :
  user p = Some u ->
  officer_base (Some u) = Some b ->
  fromBase (values p) = b ->
  fromBase
    (values (exec selectionEffect (exec (fetchEffect (inr assets)) p))) = b
  /\ fromBase_disabled
       (exec selectionEffect (exec (fetchEffect (inr assets)) p)) = true.
Proof.
  intros Hu Hb Hfrom.
  pose proof (fetch_resolve_assets p u assets Hu) as Hav.
  assert (Hfrom1 : fromBase (values (exec (fetchEffect (inr assets)) p)) = b).
  { unfold exec. rewrite (fetch_resolve_run p u assets Hu). cbn.
    destruct (truthy (assetId p)) as [i|]; [|exact Hfrom].
    destruct (List.find _ _) as [a|] eqn:Hfind; [|exact Hfrom]. cbn.
    apply find_some in Hfind as [Hin _].
    apply filterAssets_In in Hin as (_ & _ & Hbase).
    apply Hbase. now rewrite Hu. }
  assert (Huser1 : user (exec (fetchEffect (inr assets)) p) = Some u).
  { unfold exec. rewrite (fetch_resolve_run p u assets Hu). cbn.
    destruct (truthy (assetId p)) as [i|];
      [destruct (List.find _ _) as [a|]|]; exact Hu. }
  revert Hav Hfrom1 Huser1.
  generalize (exec (fetchEffect (inr assets)) p). intros p1 Hav Hfrom1 Huser1.
  unfold exec. rewrite selection_run. cbn [snd].
  destruct (List.find _ _) as [a|] eqn:Hfind; unfold fromBase_disabled;
    cbn [values fromBase user selectedAsset]; rewrite Huser1, Hb;
    (split; [|reflexivity]).
  - apply find_some in Hfind as [Hin _]. rewrite Hav in Hin.
    apply filterAssets_In in Hin as (_ & _ & Hbase).
    apply Hbase. now rewrite Hu.
  - exact Hfrom1.
Qed.

Lemma officer_source_base_fixed_witness :
  user (mounted (Some "a1")) = Some officer
  /\ officer_base (Some officer) = Some "Base Alpha"
  /\ fromBase (values (mounted (Some "a1"))) = "Base Alpha"
  /\ fromBase
       (values
          (exec selectionEffect
             (exec (fetchEffect (inr [crates; trucks]))
                (mounted (Some "a1")))))
     = "Base Alpha".
Proof.
  split; [reflexivity|]. split; [reflexivity|]. split; [reflexivity|].
  exact (proj1 (officer_source_base_fixed (mounted (Some "a1")) officer
                  "Base Alpha" [crates; trucks] eq_refl eq_refl eq_refl)).
Defined.

End TransferPage.
